(** * s3tool: a shallow embedding of [s3ops.py] and its properties

    The development follows the layout of the Python package:
    - [Py]        the fragment of Python the module relies on: exceptions,
                  truthiness of optional strings, [int]/[float] numbers with
                  true division and the [.2f] format;
    - [PosixPath] [os.path.dirname];
    - the process state ([os.environ], the local files, the trace of calls)
      and the collaborators the package does not define (boto3, the storage
      service, the operating system), gathered in a [Platform];
    - [S3ops]     [S3Summary], [_session], [_s3_client], [summarize_bucket],
                  [download_object] and [upload_file], written in a small
                  state-and-exception monad over the process state;
    - [Json]      [json.dumps] on the dictionary that the summary command
                  prints;
    - [Cli]       the group callback and the three commands of [cli.py];
    - [Demo]      one concrete platform and process state, used for examples;
    - [SizeFormat], [Summary], [Download], [Upload], [Errors] and
      [Environment] state and prove the properties of the operations;
    - [SizeEdges], [Client], [SummaryEdges], [Dirname], [ParentChain],
      [TransferEdges], [Commands] and [JsonMessage] add the edge cases, the
      directories created, the calls made and the behaviour of the
      commands. *)

From Stdlib Require Import ZArith Lia Ascii String.
From stdpp Require Import base numbers option list strings pretty gmap.

#[local] Set Warnings "-register-all,-clear-no-such-hyp".
Local Open Scope string_scope.
Local Open Scope Z_scope.

(* ===================================================================== *)
(** ** The Python fragment                                                *)
(* ===================================================================== *)

Module Py.

(** Exception classes that can reach the module.  [ClientError] is
    botocore's class for an error {e response} of the service (404, 403,
    ...); [ServiceError] stands for the classes botocore derives from it per
    error code ([NoSuchKey], [NoSuchBucket], ...).  The other botocore and
    boto3 classes derive from [BotoCoreError]/[Boto3Error], the local ones
    from [OSError]; none of them is a [ClientError]. *)
Inductive exc_class : Type :=
  | ClientError
  | ServiceError (code : string)
  | NoCredentialsError
  | ProfileNotFound
  | EndpointConnectionError
  | ConnectTimeoutError
  | ReadTimeoutError
  | FileNotFoundError
  | PermissionError
  | OSError
  | OverflowError
  | RuntimeError
  | OtherError (name : string).

(** An exception value: its class, [str(e)] and [e.__cause__]. *)
Inductive exn : Type :=
  | Exn (cls : exc_class) (msg : string) (cause : option exn).

Definition exc_type (e : exn) : exc_class := let 'Exn c _ _ := e in c.
Definition str (e : exn) : string := let 'Exn _ m _ := e in m.
Definition cause (e : exn) : option exn := let 'Exn _ _ c := e in c.

(** [issubclass(c, ClientError)] *)
Definition is_ClientError_class (c : exc_class) : bool :=
  match c with
  | ClientError | ServiceError _ => true
  | _ => false
  end.

(** [isinstance(e, ClientError)], the test of [except ClientError]. *)
Definition isinstance_ClientError (e : exn) : bool :=
  is_ClientError_class (exc_type e).

(** The outcome of evaluating an expression: a value or a raised exception. *)
Inductive result (A : Type) : Type :=
  | Return (a : A)
  | Raise (e : exn).
Arguments Return {A} a.
Arguments Raise {A} e.

#[export] Instance result_ret : MRet result := @Return.
#[export] Instance result_bind : MBind result := λ A B f r,
  match r with
  | Return a => f a
  | Raise e => Raise e
  end.
#[export] Instance result_fmap : FMap result := λ A B f r,
  match r with
  | Return a => Return (f a)
  | Raise e => Raise e
  end.

(** Truth value of an [Optional[str]]: [None] and [""] are false. *)
Definition truthy (o : option string) : bool :=
  match o with
  | Some s => negb (String.eqb s "")
  | None => false
  end.

(** [o or None] *)
Definition or_None (o : option string) : option string :=
  if truthy o then o else None.

(** [o or d] for a string default [d]. *)
Definition or_str (o : option string) (d : string) : string :=
  match o with
  | Some s => if truthy o then s else d
  | None => d
  end.

(** [s or d] for strings. *)
Definition str_or (s d : string) : string :=
  if String.eqb s "" then d else s.

(** *** Numbers

    A binary64 value is kept as sign, integer significand and binary
    exponent: the finite double [(-1)^neg * mant * 2^expo].  The module only
    produces doubles by converting an [int], by dividing an [int] by [1024]
    and by dividing a double that is at least [1024] by [1024]; none of these
    underflows, so significand and exponent describe the result exactly. *)
Record float : Type := Float { neg : bool; mant : Z; expo : Z }.

(** [m / 2^s] rounded to the nearest integer, ties to even ([0 < s]). *)
Definition round_shift (m s : Z) : Z :=
  let q := Z.shiftr m s in
  let r := Z.land m (Z.ones s) in
  let half := Z.shiftl 1 (s - 1) in
  if (half <? r) || ((r =? half) && Z.odd q) then q + 1 else q.

(** Round the real [m * 2^e] ([0 <= m]) to 53 significant bits. *)
Definition round53 (m e : Z) : Z * Z :=
  let bits := if m =? 0 then 0 else Z.log2 m + 1 in
  if bits <=? 53 then (m, e)
  else let s := bits - 53 in (round_shift m s, e + s).

(** A rounded magnitude beyond the largest finite double. *)
Definition too_large (m e : Z) : bool :=
  (0 <=? e) && (2 ^ 1024 <=? m * 2 ^ e).

(** [float(n)] for an [int]; raises [OverflowError] out of range. *)
Definition float_of_int (n : Z) : result float :=
  let '(m, e) := round53 (Z.abs n) 0 in
  if too_large m e
  then Raise (Exn OverflowError "int too large to convert to float" None)
  else Return (Float (n <? 0) m e).

(** [n / 1024] for an [int] [n]: the correctly rounded quotient. *)
Definition int_truediv_1024 (n : Z) : result float :=
  let '(m, e) := round53 (Z.abs n) (-10) in
  if too_large m e
  then Raise (Exn OverflowError "integer division result too large for a float" None)
  else Return (Float (n <? 0) m e).

(** [x / 1024] for a double: exact, the exponent drops by ten. *)
Definition float_truediv_1024 (x : float) : float :=
  Float (neg x) (mant x) (expo x - 10).

(** [x < 1024] for a double. *)
Definition float_lt_1024 (x : float) : bool :=
  if neg x then true
  else if 0 <=? expo x then mant x * 2 ^ expo x <? 1024
  else mant x <? 1024 * 2 ^ (- expo x).

(** The magnitude of [x] in hundredths, rounded half to even: the digits
    that [format(x, ".2f")] prints. *)
Definition hundredths (x : float) : Z :=
  if 0 <=? expo x then 100 * mant x * 2 ^ expo x
  else round_shift (100 * mant x) (- expo x).

Definition two_digits (c : Z) : string :=
  pretty (c / 10) +:+ pretty (c mod 10).

(** [format(x, ".2f")] for a double. *)
Definition format_2f_float (x : float) : string :=
  let h := hundredths x in
  (if neg x then "-" else "") +:+ pretty (h / 100) +:+ "." +:+ two_digits (h mod 100).

(** The two kinds of number that [size] holds in [human_readable_size]. *)
Inductive num : Type :=
  | Int (n : Z)
  | Flt (x : float).

(** [size < 1024] *)
Definition lt_1024 (size : num) : bool :=
  match size with
  | Int n => n <? 1024
  | Flt x => float_lt_1024 x
  end.

(** [size / 1024] *)
Definition truediv_1024 (size : num) : result num :=
  match size with
  | Int n => Flt <$> int_truediv_1024 n
  | Flt x => Return (Flt (float_truediv_1024 x))
  end.

(** [f"{size:.2f}"]; an [int] is converted with [float] first. *)
Definition format_2f (size : num) : result string :=
  match size with
  | Int n => format_2f_float <$> float_of_int n
  | Flt x => Return (format_2f_float x)
  end.

End Py.

Import Py.

(* ===================================================================== *)
(** ** [os.path] on POSIX                                                 *)
(* ===================================================================== *)

Module PosixPath.

Definition sep : ascii := "/"%char.

(** [p.rfind(sep) + 1]: the length of the prefix of [p] that ends with its
    last separator, [0] when [p] has none. *)
Fixpoint rfind_sep_succ (p : string) : nat :=
  match p with
  | EmptyString => O
  | String c rest =>
      match rfind_sep_succ rest with
      | O => if Ascii.eqb c sep then 1%nat else O
      | S i => S (S i)
      end
  end.

(** [head == sep * len(head)] *)
Fixpoint all_sep (head : string) : bool :=
  match head with
  | EmptyString => true
  | String c rest => Ascii.eqb c sep && all_sep rest
  end.

Fixpoint lstrip_sep (s : string) : string :=
  match s with
  | EmptyString => EmptyString
  | String c rest => if Ascii.eqb c sep then lstrip_sep rest else s
  end.

(** [head.rstrip(sep)] *)
Definition rstrip_sep (head : string) : string :=
  String.rev (lstrip_sep (String.rev head)).

(** [posixpath.dirname]:
<<
    i = p.rfind(sep) + 1
    head = p[:i]
    if head and head != sep*len(head):
        head = head.rstrip(sep)
    return head
>> *)
Definition dirname (p : string) : string :=
  let i := rfind_sep_succ p in
  let head := substring 0 i p in
  if negb (String.eqb head "") && negb (all_sep head)
  then rstrip_sep head
  else head.

(** The directories that [os.makedirs(name)] makes sure exist: [name] and,
    leaf to root, the heads obtained by repeated [dirname]. *)
Fixpoint chain_from (fuel : nat) (name : string) : list string :=
  match fuel with
  | O => [name]
  | S fuel' =>
      let head := dirname name in
      if String.eqb head "" || String.eqb head name then [name]
      else name :: chain_from fuel' head
  end.

Definition chain (name : string) : list string :=
  chain_from (String.length name) name.

End PosixPath.

(* ===================================================================== *)
(** ** The process state and the outside world                            *)
(* ===================================================================== *)

(** [botocore.config.Config] as the module builds it. *)
Record Config : Type := mkConfig {
  retries_max_attempts : Z;
  retries_mode : string;
  connect_timeout : Z;
  read_timeout : Z
}.

(** A [boto3.Session] and the client made from it are handles: they record
    what they were built with. *)
Record Session : Type := mkSession {
  profile_name : option string;
  region_name : option string
}.

Record S3Client : Type := mkClient {
  client_session : Session;
  service_name : string;
  client_config : Config
}.

(** One entry of a listing page and a page of [list_objects_v2]; the key
    ["Contents"] is absent from a page without objects. *)
Record S3Object : Type := mkObject { Key : string; Size : Z }.
Record Page : Type := mkPage { Contents : option (list S3Object) }.

(** The calls that leave the module, in the order they are made. *)
Inductive Call : Type :=
  | boto3_Session (profile_name region_name : option string)
  | Session_client (sess : Session) (service : string) (cfg : Config)
  | paginate (s3 : S3Client) (Bucket Prefix : string)
  | os_makedirs (name : string) (exist_ok : bool)
  | s3_download_file (s3 : S3Client) (Bucket Key Filename : string)
  | s3_upload_file (s3 : S3Client) (Filename Bucket Key : string)
      (ExtraArgs : option (gmap string string)).

(** What the process can change: [os.environ], the local file system
    (directories and file contents by path) and the trace of calls made. *)
Record World : Type := mkWorld {
  environ : gmap string string;
  dirs : gset string;
  files : gmap string string;
  calls : list Call
}.

(** The collaborators the module does not define: the SDK with the service
    behind it, and the operating system's verdict on local file access.
    Each answer may depend on the whole state of the process.
    - [Session_raises], [client_raises]: the exception, if any, of
      [boto3.Session(...)] and of [sess.client("s3", config=cfg)];
    - [list_pages]: the pages the paginator yields, then the exception that
      ends the iteration early, if any;
    - [makedirs_raises]: the exception, if any, of
      [os.makedirs(name, exist_ok=True)];
    - [download_file_result]: the body [s3.download_file] stores at
      [Filename], or the exception it raises (what a failed transfer leaves
      at [Filename] is not modelled);
    - [upload_file_raises]: the exception, if any, of [s3.upload_file]. *)
Record Platform : Type := mkPlatform {
  Session_raises : option string → option string → World → option exn;
  client_raises : Session → string → Config → World → option exn;
  list_pages : S3Client → string → string → World → list Page * option exn;
  makedirs_raises : string → World → option exn;
  download_file_result : S3Client → string → string → string → World → result string;
  upload_file_raises :
    S3Client → string → string → string → option (gmap string string) → World → option exn
}.

(** Computations of the module: they read and change the process state and
    end with a value or a raised exception; the state changes made before an
    exception stay. *)
Definition M (A : Type) : Type := World → result A * World.

Definition ret {A : Type} (a : A) : M A := λ w, (Return a, w).

Definition bind {A B : Type} (m : M A) (f : A → M B) : M B :=
  λ w,
    match m w with
    | (Return a, w') => f a w'
    | (Raise e, w') => (Raise e, w')
    end.

Notation "x <- m ;; k" := (bind m (λ x, k))
  (at level 20, m at level 99, k at level 200, only parsing).
Notation "m ;; k" := (bind m (λ _, k))
  (at level 100, k at level 200, only parsing, right associativity).

Definition raise {A : Type} (e : exn) : M A := λ w, (Raise e, w).

(** [try: body / except ClientError as e: handler(e)] *)
Definition try_except_ClientError {A : Type} (body : M A) (handler : exn → M A) : M A :=
  λ w,
    match body w with
    | (Return a, w') => (Return a, w')
    | (Raise e, w') =>
        if isinstance_ClientError e then handler e w' else (Raise e, w')
    end.

(** The state once the call [c] has been made. *)
Definition log_call (c : Call) (w : World) : World :=
  mkWorld (environ w) (dirs w) (files w) (calls w ++ [c]).

Definition record_call (c : Call) : M unit :=
  λ w, (Return tt, log_call c w).

Definition raise_if (o : option exn) : M unit :=
  match o with
  | Some e => raise e
  | None => ret tt
  end.

(** [os.environ[name] = value] *)
Definition setenv (name value : string) : M unit :=
  λ w, (Return tt, mkWorld (<[name := value]> (environ w)) (dirs w) (files w) (calls w)).

(** The state once the directories [names] exist. *)
Definition add_dirs (names : list string) (w : World) : World :=
  mkWorld (environ w) (list_to_set names ∪ dirs w) (files w) (calls w).

(** The state once [body] is the content of the file [path], whatever the
    file held before. *)
Definition write_file (path body : string) (w : World) : World :=
  mkWorld (environ w) (dirs w) (<[path := body]> (files w)) (calls w).

Section Calls.
Context (P : Platform).

(** [boto3.Session(profile_name=..., region_name=...)] *)
Definition call_boto3_Session (profile region : option string) : M Session :=
  record_call (boto3_Session profile region) ;;
  (λ w, raise_if (Session_raises P profile region w) w) ;;
  ret (mkSession profile region).

(** [sess.client(service, config=cfg)] *)
Definition call_client (sess : Session) (service : string) (cfg : Config) : M S3Client :=
  record_call (Session_client sess service cfg) ;;
  (λ w, raise_if (client_raises P sess service cfg w) w) ;;
  ret (mkClient sess service cfg).

(** [s3.get_paginator("list_objects_v2").paginate(Bucket=..., Prefix=...)]:
    the pages yielded and how the iteration ends. *)
Definition call_paginate (s3 : S3Client) (Bucket Prefix : string)
  : M (list Page * option exn) :=
  record_call (paginate s3 Bucket Prefix) ;;
  (λ w, (Return (list_pages P s3 Bucket Prefix w), w)).

(** [os.makedirs(name, exist_ok=True)]: unless the system refuses, [name]
    and the directories above it exist afterwards. *)
Definition call_makedirs (name : string) : M unit :=
  record_call (os_makedirs name true) ;;
  (λ w, raise_if (makedirs_raises P name w) w) ;;
  (λ w, (Return tt, add_dirs (PosixPath.chain name) w)).

(** [s3.download_file(Bucket, Key, Filename)]: on success the body of the
    object is the content of [Filename]. *)
Definition call_download_file (s3 : S3Client) (Bucket Key Filename : string) : M unit :=
  record_call (s3_download_file s3 Bucket Key Filename) ;;
  body <- (λ w, (download_file_result P s3 Bucket Key Filename w, w)) ;;
  (λ w, (Return tt, write_file Filename body w)).

(** [s3.upload_file(Filename, Bucket, Key)] and
    [s3.upload_file(Filename, Bucket, Key, ExtraArgs=extra)]. *)
Definition call_upload_file (s3 : S3Client) (Filename Bucket Key : string)
    (ExtraArgs : option (gmap string string)) : M unit :=
  record_call (s3_upload_file s3 Filename Bucket Key ExtraArgs) ;;
  (λ w, raise_if (upload_file_raises P s3 Filename Bucket Key ExtraArgs w) w).
End Calls.

(* ===================================================================== *)
(** ** [s3tool/s3ops.py]                                                  *)
(* ===================================================================== *)

Module S3ops.

(** [@dataclass(frozen=True) class S3Summary] *)
Record S3Summary : Type := mkS3Summary {
  bucket : string;
  prefix : option string;
  object_count : Z;
  total_bytes : Z
}.

(** The body of [for unit in units: ...] followed by the final [return]:
<<
    for unit in ["B", "KB", "MB", "GB", "TB", "PB"]:
        if size < 1024:
            return f"{size:.2f} {unit}"
        size /= 1024
    return f"{size:.2f} EB"
>> *)
Fixpoint for_unit (units : list string) (size : num) : result string :=
  match units with
  | unit :: rest =>
      if lt_1024 size
      then text ← format_2f size; mret (text +:+ " " +:+ unit)
      else size' ← truediv_1024 size; for_unit rest size'
  | [] => text ← format_2f size; mret (text +:+ " EB")
  end.

Definition human_readable_size (self : S3Summary) : result string :=
  for_unit ["B"; "KB"; "MB"; "GB"; "TB"; "PB"] (Int (total_bytes self)).

Section Operations.
Context (P : Platform).

(** <<
    if aws_profile:
        os.environ["AWS_PROFILE"] = aws_profile
    return boto3.Session(profile_name=aws_profile or None,
                         region_name=region or None)
    >> *)
Definition _session (aws_profile region : option string) : M Session :=
  match aws_profile with
  | Some name => if truthy aws_profile then setenv "AWS_PROFILE" name else ret tt
  | None => ret tt
  end ;;
  call_boto3_Session P (or_None aws_profile) (or_None region).

(** <<
    sess = _session(aws_profile, region)
    cfg = Config(retries={"max_attempts": 10, "mode": "standard"},
                 connect_timeout=5, read_timeout=60)
    return sess.client("s3", config=cfg)
    >> *)
Definition _s3_client (aws_profile region : option string) : M S3Client :=
  sess <- _session aws_profile region ;;
  let cfg := mkConfig 10 "standard" 5 60 in
  call_client P sess "s3" cfg.

(** [page.get("Contents", [])] *)
Definition page_get_Contents (page : Page) : list S3Object :=
  default [] (Contents page).

(** The inner loop over the objects of a page, on [(total, count)]:
    [count += 1; total += int(obj["Size"])]. *)
Definition for_obj (objs : list S3Object) (acc : Z * Z) : Z * Z :=
  foldl (λ '(total, count) obj, (total + Size obj, count + 1)) acc objs.

(** The outer loop over the pages. *)
Definition for_page (pages : list Page) (acc : Z * Z) : Z * Z :=
  foldl (λ acc page, for_obj (page_get_Contents page) acc) acc pages.

(** [summarize_bucket(bucket, prefix, aws_profile=..., region=...)].  The
    loop consumes the pages the paginator yields; when the paginator then
    raises, the exception leaves the function and the sums are lost. *)
Definition summarize_bucket (bucket : string) (prefix aws_profile region : option string)
  : M S3Summary :=
  s3 <- _s3_client aws_profile region ;;
  listing <- call_paginate P s3 bucket (or_str prefix "") ;;
  let '(total, count) := for_page listing.1 (0, 0) in
  raise_if listing.2 ;;
  ret (mkS3Summary bucket prefix count total).

(** [download_object(bucket, key, dest_path, aws_profile=..., region=...)]
<<
  s3 = _s3_client(aws_profile, region)
  os.makedirs(os.path.dirname(dest_path) or ".", exist_ok=True)
  try:
      s3.download_file(bucket, key, dest_path)
  except ClientError as e:
      raise RuntimeError(f"Failed to download s3://{bucket}/{key}: {e}") from e
  return dest_path
>> *)
Definition download_object (bucket key dest_path : string)
    (aws_profile region : option string) : M string :=
  s3 <- _s3_client aws_profile region ;;
  call_makedirs P (str_or (PosixPath.dirname dest_path) ".") ;;
  try_except_ClientError
    (call_download_file P s3 bucket key dest_path)
    (λ e, raise (Exn RuntimeError
                   ("Failed to download s3://" +:+ bucket +:+ "/" +:+ key +:+ ": " +:+ str e)
                   (Some e))) ;;
  ret dest_path.

(** [if value: extra_args[name] = value] *)
Definition set_if_truthy (name : string) (value : option string)
    (extra_args : gmap string string) : gmap string string :=
  match value with
  | Some v => if truthy value then <[name := v]> extra_args else extra_args
  | None => extra_args
  end.

(** The dictionary [extra_args] after the three conditional assignments. *)
Definition build_extra_args (content_type sse acl : option string) : gmap string string :=
  let extra_args := ∅ in
  let extra_args := set_if_truthy "ContentType" content_type extra_args in
  let extra_args := set_if_truthy "ServerSideEncryption" sse extra_args in
  let extra_args := set_if_truthy "ACL" acl extra_args in
  extra_args.

(** [upload_file(src_path, bucket, key, content_type=..., sse=..., acl=...,
    aws_profile=..., region=...)]
<<
  try:
      if extra_args:
          s3.upload_file(src_path, bucket, key, ExtraArgs=extra_args)
      else:
          s3.upload_file(src_path, bucket, key)
  except ClientError as e:
      raise RuntimeError(
          f"Failed to upload {src_path} to s3://{bucket}/{key}: {e}") from e
  return bucket, key
>> *)
Definition upload_file (src_path bucket key : string)
    (content_type sse acl aws_profile region : option string) : M (string * string) :=
  s3 <- _s3_client aws_profile region ;;
  let extra_args := build_extra_args content_type sse acl in
  try_except_ClientError
    (if bool_decide (extra_args ≠ ∅)
     then call_upload_file P s3 src_path bucket key (Some extra_args)
     else call_upload_file P s3 src_path bucket key None)
    (λ e, raise (Exn RuntimeError
                   ("Failed to upload " +:+ src_path +:+ " to s3://" +:+ bucket +:+ "/"
                      +:+ key +:+ ": " +:+ str e)
                   (Some e))) ;;
  ret (bucket, key).
End Operations.

End S3ops.

Import S3ops.

(* ===================================================================== *)
(** ** [json.dumps] on a flat dictionary                                  *)
(* ===================================================================== *)

Module Json.

(** A character of a string stands for the code point of the same number,
    so the strings here are the Python strings of code points below 256. *)

Definition quote : ascii := "034"%char.
Definition backslash : ascii := "092"%char.
Definition newline : ascii := "010"%char.

(** One digit of [format(n, "04x")]. *)
Definition hex_digit (n : N) : ascii :=
  match n with
  | 0 => "0" | 1 => "1" | 2 => "2" | 3 => "3" | 4 => "4" | 5 => "5" | 6 => "6"
  | 7 => "7" | 8 => "8" | 9 => "9" | 10 => "a" | 11 => "b" | 12 => "c"
  | 13 => "d" | 14 => "e" | _ => "f"
  end%char%N.

(** What [ESCAPE_ASCII.sub(replace, s)] puts for one character: the entry
    of [ESCAPE_DCT] for a backslash, a quote, [\b], [\f], [\n], [\r] and
    [\t]; the character itself from the space to the tilde; and
    ['\\u{0:04x}'.format(ord(c))] for any other. *)
Definition escape (c : ascii) : string :=
  let n := N_of_ascii c in
  if (n =? 92)%N then String backslash (String backslash "")
  else if (n =? 34)%N then String backslash (String quote "")
  else if (n =? 8)%N then String backslash "b"
  else if (n =? 12)%N then String backslash "f"
  else if (n =? 10)%N then String backslash "n"
  else if (n =? 13)%N then String backslash "r"
  else if (n =? 9)%N then String backslash "t"
  else if (32 <=? n)%N && (n <=? 126)%N then String c ""
  else String backslash
         ("u00" +:+ String (hex_digit (n / 16)) (String (hex_digit (n mod 16)) "")).

Fixpoint escape_all (s : string) : string :=
  match s with
  | EmptyString => ""
  | String c rest => escape c +:+ escape_all rest
  end.

(** [py_encode_basestring_ascii(s)] *)
Definition encode_str (s : string) : string :=
  String quote (escape_all s +:+ String quote "").

(** The values of the dictionary that [summary_cmd] prints. *)
Inductive value : Type :=
  | Null
  | Number (n : Z)
  | Str (s : string).

(** The encoding of a value; a number is printed in full, the caller
    checks the limit on its digits. *)
Definition encode (v : value) : string :=
  match v with
  | Null => "null"
  | Number n => pretty n
  | Str s => encode_str s
  end.

Definition item (kv : string * value) : string :=
  encode_str kv.1 +:+ ": " +:+ encode kv.2.

Fixpoint join (separator : string) (parts : list string) : string :=
  match parts with
  | [] => ""
  | [part] => part
  | part :: rest => part +:+ separator +:+ join separator rest
  end.

(** [json.dumps(d, indent=2)] for a dictionary of string keys, given as the
    list of its items in insertion order. *)
Definition dumps_indent2 (d : list (string * value)) : string :=
  match d with
  | [] => "{}"
  | _ =>
      let newline_indent := String newline "  " in
      "{" +:+ newline_indent +:+ join ("," +:+ newline_indent) (item <$> d)
        +:+ String newline "}"
  end.

End Json.

(* ===================================================================== *)
(** ** [s3tool/cli.py]                                                    *)
(* ===================================================================== *)

Module Cli.

(** The click context, as far as the commands use it: [ctx.obj], which is
    [None] or a dictionary from strings to optional strings. *)
Record Context : Type := mkContext { obj : option (gmap string (option string)) }.

(** The machine the commands run on: the platform of the operations,
    [os.path.abspath], which depends on the working directory and raises
    when there is none, and [sys.get_int_max_str_digits()], the greatest
    number of digits an [int] may have when it is turned into a string ([0]
    when the interpreter sets no limit, 4300 unless configured otherwise). *)
Record Host : Type := mkHost {
  platform : Platform;
  abspath : string → result string;
  int_max_str_digits : Z
}.

(** The state of a command: the state of the process and the messages
    given to [click.echo] so far. *)
Record Process : Type := mkProcess { world : World; stdout : list string }.

Definition Cmd (A : Type) : Type := Process → result A * Process.

Definition cret {A : Type} (a : A) : Cmd A := λ p, (Return a, p).

Definition cbind {A B : Type} (m : Cmd A) (f : A → Cmd B) : Cmd B :=
  λ p,
    match m p with
    | (Return a, p') => f a p'
    | (Raise e, p') => (Raise e, p')
    end.

Declare Scope cmd_scope.
Delimit Scope cmd_scope with cmd.
Notation "x <- m ;; k" := (cbind m (λ x, k))
  (at level 20, m at level 99, k at level 200, only parsing) : cmd_scope.
Notation "m ;; k" := (cbind m (λ _, k))
  (at level 100, k at level 200, only parsing, right associativity) : cmd_scope.

(** An operation of [s3ops] run inside a command. *)
Definition call {A : Type} (m : M A) : Cmd A :=
  λ p, let '(r, w') := m (world p) in (r, mkProcess w' (stdout p)).

(** An expression without effect on the state. *)
Definition eval {A : Type} (r : result A) : Cmd A := λ p, (r, p).

(** [click.echo(message)]; the output stream takes every message. *)
Definition echo (message : string) : Cmd unit :=
  λ p, (Return tt, mkProcess (world p) (stdout p ++ [message])).

(** [ctx.ensure_object(dict)] *)
Definition ensure_object (ctx : Context) : Context :=
  match obj ctx with
  | Some _ => ctx
  | None => mkContext (Some ∅)
  end.

(** [ctx.obj[key] = value] on a context whose object is a dictionary. *)
Definition obj_setitem (key : string) (value : option string) (ctx : Context) : Context :=
  mkContext (<[key := value]> <$> obj ctx).

(** [ctx.obj[key]] *)
Definition obj_getitem (ctx : Context) (key : string) : result (option string) :=
  match obj ctx with
  | None =>
      Raise (Exn (OtherError "TypeError") "'NoneType' object is not subscriptable" None)
  | Some d =>
      match d !! key with
      | Some value => Return value
      | None => Raise (Exn (OtherError "KeyError") ("'" +:+ key +:+ "'") None)
      end
  end.

(** <<
    def main(ctx, aws_profile, region):
        ctx.ensure_object(dict)
        ctx.obj["profile"] = aws_profile
        ctx.obj["region"] = region
    >> *)
Definition main (ctx : Context) (aws_profile region : option string) : Context :=
  let ctx := ensure_object ctx in
  let ctx := obj_setitem "profile" aws_profile ctx in
  let ctx := obj_setitem "region" region ctx in
  ctx.

Section Commands.
Context (H : Host).

Local Open Scope cmd_scope.

(** An [int] with more digits than the limit. *)
Definition too_long (n : Z) : bool :=
  (0 <? int_max_str_digits H) && (10 ^ int_max_str_digits H <=? Z.abs n).

Definition too_long_error : exn :=
  Exn (OtherError "ValueError")
    ("Exceeds the limit (" +:+ pretty (int_max_str_digits H)
       +:+ " digits) for integer string conversion; "
       +:+ "use sys.set_int_max_str_digits() to increase the limit") None.

(** [str(n)], which is also [format(n, "")] and [repr(n)]. *)
Definition str_int (n : Z) : result string :=
  if too_long n then Raise too_long_error else Return (pretty n).

(** [json.dumps(d, indent=2)]: the encoder turns each number into a string
    with [repr]. *)
Definition json_dumps (d : list (string * Json.value)) : result string :=
  if existsb (λ kv, match kv.2 with Json.Number n => too_long n | _ => false end) d
  then Raise too_long_error
  else Return (Json.dumps_indent2 d).

(** <<
    prof = ctx.obj["profile"]
    region = ctx.obj["region"]
    result = summarize_bucket(bucket, prefix, aws_profile=prof, region=region)
    if as_json:
        click.echo(json.dumps({"bucket": ..., "prefix": ..., "object_count": ...,
                               "total_bytes": ..., "human_size": ...}, indent=2))
    else:
        click.echo(f"Bucket:       {result.bucket}")
        click.echo(f"Prefix:       {result.prefix or '(none)'}")
        click.echo(f"Objects:      {result.object_count}")
        click.echo(f"Total size:   {result.total_bytes} bytes ({result.human_readable_size()})")
    >> *)
Definition summary_cmd (ctx : Context) (bucket : string) (prefix : option string)
    (as_json : bool) : Cmd unit :=
  prof <- eval (obj_getitem ctx "profile") ;;
  region <- eval (obj_getitem ctx "region") ;;
  result <- call (summarize_bucket (platform H) bucket prefix prof region) ;;
  if as_json then
    human_size <- eval (human_readable_size result) ;;
    message <- eval (json_dumps
                       [ ("bucket", Json.Str (S3ops.bucket result));
                         ("prefix", match S3ops.prefix result with
                                    | Some s => Json.Str s
                                    | None => Json.Null
                                    end);
                         ("object_count", Json.Number (object_count result));
                         ("total_bytes", Json.Number (total_bytes result));
                         ("human_size", Json.Str human_size) ]) ;;
    echo message
  else
    echo ("Bucket:       " +:+ S3ops.bucket result) ;;
    echo ("Prefix:       " +:+ or_str (S3ops.prefix result) "(none)") ;;
    count <- eval (str_int (object_count result)) ;;
    echo ("Objects:      " +:+ count) ;;
    total <- eval (str_int (total_bytes result)) ;;
    human_size <- eval (human_readable_size result) ;;
    echo ("Total size:   " +:+ total +:+ " bytes (" +:+ human_size +:+ ")").

(** <<
    path = download_object(bucket, key, dest_path, aws_profile=prof, region=region)
    click.echo(f"Downloaded to: {os.path.abspath(path)}")
    >> *)
Definition download_cmd (ctx : Context) (bucket key dest_path : string) : Cmd unit :=
  prof <- eval (obj_getitem ctx "profile") ;;
  region <- eval (obj_getitem ctx "region") ;;
  path <- call (download_object (platform H) bucket key dest_path prof region) ;;
  absolute <- eval (abspath H path) ;;
  echo ("Downloaded to: " +:+ absolute).

(** <<
    b, k = upload_file(src_path, bucket, key, content_type=content_type,
                       sse=sse, acl=acl, aws_profile=prof, region=region)
    click.echo(f"Uploaded: s3://{b}/{k}")
    >> *)
Definition upload_cmd (ctx : Context) (src_path bucket key : string)
    (content_type sse acl : option string) : Cmd unit :=
  prof <- eval (obj_getitem ctx "profile") ;;
  region <- eval (obj_getitem ctx "region") ;;
  target <- call (upload_file (platform H) src_path bucket key content_type sse acl
                    prof region) ;;
  let '(b, k) := target in
  echo ("Uploaded: s3://" +:+ b +:+ "/" +:+ k).

End Commands.

End Cli.

(* ===================================================================== *)
(** ** A concrete outside world                                           *)
(* ===================================================================== *)

Module Demo.

(** A service with one bucket, [my-bucket].  Under [logs/2025/] it lists
    three objects of 100, 200 and 300 bytes on two pages, under [empty/] a
    single page without ["Contents"]; any other listing fails after its
    first page.  [download_file] delivers [reports/q1.csv], answers 404 for
    any other key of the bucket and cannot connect for another bucket;
    [upload_file] succeeds, except that the bucket [locked] answers 403 and
    the source [absent.csv] does not exist.  Only the directory [/proc]
    cannot be written to. *)
Definition logs : list Page :=
  [ mkPage (Some [mkObject "logs/2025/a.log" 100; mkObject "logs/2025/b.log" 200]);
    mkPage (Some [mkObject "logs/2025/c.log" 300]) ].

Definition not_found : exn :=
  Exn ClientError
    "An error occurred (404) when calling the HeadObject operation: Not Found" None.

Definition access_denied : exn :=
  Exn ClientError
    "An error occurred (AccessDenied) when calling the PutObject operation: Access Denied"
    None.

Definition unreachable : exn :=
  Exn EndpointConnectionError
    "Could not connect to the endpoint URL" None.

Definition no_such_file : exn :=
  Exn FileNotFoundError "[Errno 2] No such file or directory: 'absent.csv'" None.

Definition read_only : exn :=
  Exn PermissionError "[Errno 13] Permission denied: '/proc'" None.

Definition platform : Platform := {|
  Session_raises _ _ _ := None;
  client_raises _ _ _ _ := None;
  list_pages _ Bucket Prefix _ :=
    if String.eqb Bucket "my-bucket" && String.eqb Prefix "logs/2025/" then (logs, None)
    else if String.eqb Bucket "my-bucket" && String.eqb Prefix "empty/"
    then ([mkPage None], None)
    else ([mkPage (Some [mkObject "x" 7])], Some unreachable);
  makedirs_raises name _ := if String.eqb name "/proc" then Some read_only else None;
  download_file_result _ Bucket Key _ _ :=
    if negb (String.eqb Bucket "my-bucket") then Raise unreachable
    else if String.eqb Key "reports/q1.csv" then Return "q,1"
    else Raise not_found;
  upload_file_raises _ Filename Bucket _ _ _ :=
    if String.eqb Filename "absent.csv" then Some no_such_file
    else if String.eqb Bucket "locked" then Some access_denied
    else None
|}.

(** A fresh process: empty environment apart from [HOME], an existing file
    at [out/q1.csv], nothing called yet. *)
Definition world : World := {|
  environ := {[ "HOME" := "/root" ]};
  dirs := {[ "out" ]};
  files := {[ "out/q1.csv" := "stale" ]};
  calls := []
|}.

(** The same service seen with credentials that may neither read nor
    write: it answers 403 to the [HeadObject] request with which
    [download_file] starts and to the put of [upload_file]. *)
Definition forbidden : exn :=
  Exn ClientError
    "An error occurred (403) when calling the HeadObject operation: Forbidden" None.

(** What boto3's [upload_file] raises when the put is refused: its own
    [S3UploadFailedError], which is not a [ClientError]. *)
Definition upload_failed : exn :=
  Exn (OtherError "S3UploadFailedError")
    "Failed to upload ./report.csv to locked/r.csv: An error occurred (AccessDenied) when calling the PutObject operation: Access Denied"
    None.

Definition platform_without_permission : Platform := {|
  Session_raises := Session_raises platform;
  client_raises := client_raises platform;
  list_pages := list_pages platform;
  makedirs_raises := makedirs_raises platform;
  download_file_result _ _ _ _ _ := Raise forbidden;
  upload_file_raises _ _ _ _ _ _ := Some upload_failed
|}.

End Demo.

Module CliDemo.

(** The demonstration platform with [/work] as working directory, for
    destinations that are relative and need no normalisation, and the
    default limit of 4300 digits; a process
    that has printed nothing; and the context after the group callback ran
    without options. *)
Definition host : Cli.Host :=
  Cli.mkHost Demo.platform (λ path, Return ("/work/" +:+ path)) 4300.

Definition process : Cli.Process := Cli.mkProcess Demo.world [].

Definition context : Cli.Context := Cli.main (Cli.mkContext None) None None.

End CliDemo.

(* ===================================================================== *)
(** ** Vocabulary of the statements                                       *)
(* ===================================================================== *)

Module Vocabulary.

(** The objects a sequence of pages lists, in listing order. *)
Definition listed (pages : list Page) : list S3Object :=
  pages ≫= page_get_Contents.

(** The sum of the sizes of a list of objects. *)
Definition sum_sizes (objs : list S3Object) : Z :=
  foldr (λ obj acc, Size obj + acc) 0 objs.

(** The argument [download_object] gives to [os.makedirs]. *)
Definition parent (dest_path : string) : string :=
  str_or (PosixPath.dirname dest_path) ".".

(** The exception [download_object] raises for the [ClientError] [e]. *)
Definition download_error (bucket key : string) (e : exn) : exn :=
  Exn RuntimeError
    ("Failed to download s3://" +:+ bucket +:+ "/" +:+ key +:+ ": " +:+ str e) (Some e).

(** The exception [upload_file] raises for the [ClientError] [e]. *)
Definition upload_error (src_path bucket key : string) (e : exn) : exn :=
  Exn RuntimeError
    ("Failed to upload " +:+ src_path +:+ " to s3://" +:+ bucket +:+ "/" +:+ key
       +:+ ": " +:+ str e) (Some e).

(** The [ExtraArgs] of the call that [upload_file] makes: the dictionary
    when it is not empty, no argument at all otherwise. *)
Definition forwarded (content_type sse acl : option string)
  : option (gmap string string) :=
  if bool_decide (build_extra_args content_type sse acl ≠ ∅)
  then Some (build_extra_args content_type sse acl)
  else None.

End Vocabulary.

Import Vocabulary.

(* ===================================================================== *)
(** ** Further vocabulary: digits, the client and the traces of calls     *)
(* ===================================================================== *)

Module Notions.

(** A decimal digit. *)
Definition is_digit (c : ascii) : bool :=
  (48 <=? Z.of_N (N_of_ascii c)) && (Z.of_N (N_of_ascii c) <=? 57).

(** The configuration every client is built with. *)
Definition fixed_config : Config := mkConfig 10 "standard" 5 60.

(** The session and the client that [_s3_client] builds. *)
Definition session_for (aws_profile region : option string) : Session :=
  mkSession (or_None aws_profile) (or_None region).

Definition client_for (aws_profile region : option string) : S3Client :=
  mkClient (session_for aws_profile region) "s3" fixed_config.

(** The two calls of client construction. *)
Definition session_call (aws_profile region : option string) : Call :=
  boto3_Session (or_None aws_profile) (or_None region).

Definition client_call (aws_profile region : option string) : Call :=
  Session_client (session_for aws_profile region) "s3" fixed_config.

(** The state once [_session] has looked at the profile. *)
Definition with_profile (aws_profile : option string) (w : World) : World :=
  match aws_profile with
  | Some name =>
      if truthy aws_profile
      then mkWorld (<["AWS_PROFILE" := name]> (environ w)) (dirs w) (files w) (calls w)
      else w
  | None => w
  end.

(** The calls made between two states. *)
Definition made (w w' : World) (trace : list Call) : Prop :=
  calls w' = (calls w ++ trace)%list.

(** A string without separator, and a string whose last character is a
    separator. *)
Fixpoint no_sep (s : string) : bool :=
  match s with
  | EmptyString => true
  | String c rest => negb (Ascii.eqb c PosixPath.sep) && no_sep rest
  end.

Definition ends_with_sep (s : string) : bool :=
  match String.rev s with
  | String c _ => Ascii.eqb c PosixPath.sep
  | EmptyString => false
  end.

(** A component of a path: a name that is not empty and has no separator;
    and the path [base/c1/.../cn] that descends from [base] through the
    components [c1], ..., [cn]. *)
Definition component (c : string) : bool :=
  negb (String.eqb c "") && no_sep c.

Definition descend (base : string) (comps : list string) : string :=
  foldl (λ path c, path +:+ "/" +:+ c) base comps.

(** The message [summary_cmd] prints in JSON mode for a summary and its
    size string. *)
Definition summary_json (result : S3Summary) (human_size : string) : string :=
  Json.dumps_indent2
    [ ("bucket", Json.Str (S3ops.bucket result));
      ("prefix", match S3ops.prefix result with
                 | Some s => Json.Str s
                 | None => Json.Null
                 end);
      ("object_count", Json.Number (object_count result));
      ("total_bytes", Json.Number (total_bytes result));
      ("human_size", Json.Str human_size) ].

(** A printable ASCII character or a line feed, and a string of these. *)
Definition is_plain (c : ascii) : bool :=
  let n := N_of_ascii c in
  ((32 <=? n)%N && (n <=? 126)%N) || (n =? 10)%N.

Fixpoint all_plain (s : string) : bool :=
  match s with
  | EmptyString => true
  | String c rest => is_plain c && all_plain rest
  end.

(** Reading back the first character of an escaped string: the inverse of
    [Json.escape], used to show that escaping loses nothing. *)
Definition unhex (c : ascii) : option N :=
  let n := N_of_ascii c in
  if (48 <=? n)%N && (n <=? 57)%N then Some (n - 48)%N
  else if (97 <=? n)%N && (n <=? 102)%N then Some (n - 87)%N
  else None.

Definition unescape_head (s : string) : option (ascii * string) :=
  match s with
  | EmptyString => None
  | String c rest =>
      if negb (Ascii.eqb c Json.backslash) then Some (c, rest)
      else
        match rest with
        | EmptyString => None
        | String d rest' =>
            if Ascii.eqb d "b" then Some ("008"%char, rest')
            else if Ascii.eqb d "f" then Some ("012"%char, rest')
            else if Ascii.eqb d "n" then Some ("010"%char, rest')
            else if Ascii.eqb d "r" then Some ("013"%char, rest')
            else if Ascii.eqb d "t" then Some ("009"%char, rest')
            else if Ascii.eqb d "u" then
              match rest' with
              | String _ (String _ (String h (String l rest''))) =>
                  match unhex h, unhex l with
                  | Some a, Some b => Some (ascii_of_N (16 * a + b), rest'')
                  | _, _ => None
                  end
              | _ => None
              end
            else Some (d, rest')
        end
  end.

End Notions.

Import Notions.

(* ===================================================================== *)
(** ** The size string as the specification words it                      *)
(* ===================================================================== *)

Module SizeSpec.

(** Exact arithmetic, no doubles: the value is the fraction
    [total_bytes / den] with [den] a power of [1024]. *)

(** Step through the units while the value is at least [1024]: the unit
    reached and the power of [1024] divided by. *)
Fixpoint scale (units : list string) (n den : Z) : Z * string :=
  match units with
  | unit :: rest => if n <? 1024 * den then (den, unit) else scale rest n (1024 * den)
  | [] => (den, "EB")
  end.

(** [num / den] rounded to the nearest integer, ties to even. *)
Definition round_half_even (num den : Z) : Z :=
  let q := num / den in
  let r := num mod den in
  if (den <? 2 * r) || ((2 * r =? den) && Z.odd q) then q + 1 else q.

(** A number of hundredths printed with two decimal digits. *)
Definition two_decimals (h : Z) : string :=
  pretty (h / 100) +:+ "." +:+ pretty (h mod 100 / 10) +:+ pretty (h mod 100 mod 10).

Definition human_size (total_bytes : Z) : string :=
  let '(den, unit) := scale ["B"; "KB"; "MB"; "GB"; "TB"; "PB"] total_bytes 1 in
  two_decimals (round_half_even (100 * total_bytes) den) +:+ " " +:+ unit.

(** The double nearest to a non-negative integer, as an integer: [n] kept
    to 53 significant bits. *)
Definition nearest_double (n : Z) : Z :=
  (round53 n 0).1 * 2 ^ (round53 n 0).2.

End SizeSpec.

(* ===================================================================== *)
(** ** Properties of [human_readable_size]                                *)
(* ===================================================================== *)

Module SizeFormat.

Import SizeSpec.

Lemma round_shift_half_even (m s : Z) :
  0 ≤ m → 0 < s → round_shift m s = round_half_even m (2 ^ s).
Proof.
  intros Hm Hs. unfold round_shift, round_half_even.
  rewrite Z.shiftr_div_pow2, Z.land_ones, Z.shiftl_1_l by lia.
  assert (Hp : 2 ^ s = 2 * 2 ^ (s - 1)).
  { rewrite <- Z.pow_succ_r by lia. f_equal. lia. }
  set (r := m `mod` 2 ^ s). set (q := m `div` 2 ^ s).
  assert (Hlt : (2 ^ (s - 1) <? r) = (2 ^ s <? 2 * r)).
  { rewrite Hp. destruct (Z.ltb_spec (2 ^ (s - 1)) r), (Z.ltb_spec (2 * 2 ^ (s - 1)) (2 * r)); lia. }
  assert (Heq : (r =? 2 ^ (s - 1)) = (2 * r =? 2 ^ s)).
  { rewrite Hp. destruct (Z.eqb_spec r (2 ^ (s - 1))), (Z.eqb_spec (2 * r) (2 * 2 ^ (s - 1))); lia. }
  by rewrite Hlt, Heq.
Qed.

(** Rounding a fraction does not depend on how it is written. *)
Lemma round_half_even_scale (a b c : Z) :
  0 < b → 0 < c → round_half_even (a * c) (b * c) = round_half_even a b.
Proof.
  intros Hb Hc. unfold round_half_even.
  rewrite Z.div_mul_cancel_r, Z.mul_mod_distr_r by lia.
  set (r := a `mod` b). set (q := a `div` b).
  assert (Hlt : (b * c <? 2 * (r * c)) = (b <? 2 * r)).
  { destruct (Z.ltb_spec (b * c) (2 * (r * c))), (Z.ltb_spec b (2 * r)); nia. }
  assert (Heq : (2 * (r * c) =? b * c) = (2 * r =? b)).
  { destruct (Z.eqb_spec (2 * (r * c)) (b * c)), (Z.eqb_spec (2 * r) b); nia. }
  by rewrite Hlt, Heq.
Qed.

Lemma round_half_even_exact (a b : Z) : 0 < b → round_half_even (a * b) b = a.
Proof.
  intros Hb. unfold round_half_even.
  rewrite Z.div_mul, Z.mod_mul by lia.
  destruct (Z.ltb_spec b (2 * 0)); [lia|].
  destruct (Z.eqb_spec (2 * 0) b); [lia|]. done.
Qed.

(** The rounding error of [round_shift] is at most half a unit. *)
Lemma round_shift_bounds (m s : Z) :
  0 ≤ m → 0 < s →
  m `div` 2 ^ s ≤ round_shift m s ≤ m `div` 2 ^ s + 1.
Proof.
  intros Hm Hs. unfold round_shift. rewrite Z.shiftr_div_pow2 by lia.
  destruct (_ || _); lia.
Qed.

(** *** The double nearest to an [int] *)

Lemma round53_exponent (n e : Z) :
  round53 n e = ((round53 n 0).1, e + (round53 n 0).2).
Proof.
  unfold round53. destruct (_ <=? 53); cbn [fst snd]; f_equal; lia.
Qed.

(** An [int] below [2^53] is a double. *)
Lemma round53_exact (n e : Z) : 0 ≤ n < 2 ^ 53 → round53 n e = (n, e).
Proof.
  intros Hn. unfold round53.
  destruct (Z.eqb_spec n 0) as [->|Hne]; [done|].
  assert (Z.log2 n < 53) by (apply Z.log2_lt_pow2; lia).
  destruct (Z.leb_spec (Z.log2 n + 1) 53); [done|lia].
Qed.

Lemma nearest_double_exact (n : Z) : 0 ≤ n < 2 ^ 53 → nearest_double n = n.
Proof.
  intros Hn. unfold nearest_double. rewrite round53_exact by done.
  cbn [fst snd]. rewrite Z.pow_0_r. lia.
Qed.

(** Beyond [2^53] the significand has 53 or 54 bits and the exponent is
    positive; the double stays below the next power of two. *)
Lemma round53_large (n : Z) :
  2 ^ 53 ≤ n →
  let '(m, s) := round53 n 0 in
  0 < s ∧ s = Z.log2 n - 52 ∧ 2 ^ 52 ≤ m ≤ 2 ^ 53.
Proof.
  intros Hn. unfold round53.
  assert (H53 : 0 < 2 ^ 53) by (apply Z.pow_pos_nonneg; lia).
  destruct (Z.eqb_spec n 0) as [->|_]; [lia|].
  assert (Hlog : 53 ≤ Z.log2 n) by (apply Z.log2_le_pow2; lia).
  destruct (Z.leb_spec (Z.log2 n + 1) 53); [lia|].
  set (s := Z.log2 n + 1 - 53). assert (Hs : 0 < s) by lia.
  split; [lia|]. split; [lia|].
  destruct (Z.log2_spec n) as [Hlo Hhi]; [lia|].
  pose proof (round_shift_bounds n s ltac:(lia) Hs) as [Hq1 Hq2].
  assert (Hps : 0 < 2 ^ s) by (apply Z.pow_pos_nonneg; lia).
  assert (Hlo' : 2 ^ 52 * 2 ^ s ≤ n).
  { rewrite <- Z.pow_add_r by lia. replace (52 + s) with (Z.log2 n) by lia. done. }
  assert (Hhi' : n < 2 ^ 53 * 2 ^ s).
  { rewrite <- Z.pow_add_r by lia. replace (53 + s) with (Z.succ (Z.log2 n)) by lia. done. }
  assert (2 ^ 52 ≤ n `div` 2 ^ s) by (apply Z.div_le_lower_bound; lia).
  assert (n `div` 2 ^ s < 2 ^ 53) by (apply Z.div_lt_upper_bound; lia).
  lia.
Qed.

Lemma nearest_double_large (n : Z) : 2 ^ 53 ≤ n → 2 ^ 53 ≤ nearest_double n.
Proof.
  intros Hn. unfold nearest_double.
  pose proof (round53_large n Hn) as Hr. destruct (round53 n 0) as [m s].
  destruct Hr as (Hs & _ & Hm & _). cbn [fst snd].
  assert (2 ^ 1 ≤ 2 ^ s) by (apply Z.pow_le_mono_r; lia).
  change (2 ^ 53) with (2 ^ 52 * 2 ^ 1). nia.
Qed.

(** No overflow below [2^1033]. *)
Lemma int_truediv_1024_Return (n : Z) :
  0 ≤ n < 2 ^ 1033 →
  int_truediv_1024 n = Return (Float false (round53 n 0).1 ((round53 n 0).2 - 10)).
Proof.
  intros Hn. unfold int_truediv_1024.
  rewrite Z.abs_eq, round53_exponent by lia.
  replace (n <? 0) with false by (symmetry; apply Z.ltb_ge; lia).
  replace (-10 + (round53 n 0).2) with ((round53 n 0).2 - 10) by lia.
  assert (Hsmall : too_large (round53 n 0).1 ((round53 n 0).2 - 10) = false); [|by rewrite Hsmall].
  unfold too_large. apply andb_false_iff.
  destruct (Z.leb_spec 0 ((round53 n 0).2 - 10)) as [He|]; [right|by left].
  apply Z.leb_gt.
  destruct (Z.lt_ge_cases n (2 ^ 53)) as [Hlt|Hge].
  { rewrite round53_exact in He by lia. cbn in He. lia. }
  pose proof (round53_large n Hge) as Hr. destruct (round53 n 0) as [m s].
  destruct Hr as (Hs & Hlog & _ & Hm). cbn [fst snd] in *.
  assert (Z.log2 n < 1033) by (apply Z.log2_lt_pow2; lia).
  assert (Hp : 2 ^ (s - 10) ≤ 2 ^ 970) by (apply Z.pow_le_mono_r; lia).
  assert (0 < 2 ^ (s - 10)) by (apply Z.pow_pos_nonneg; lia).
  change (2 ^ 1024) with (2 * (2 ^ 53 * 2 ^ 970)).
  assert (0 < 2 ^ 53) by done. assert (0 < 2 ^ 970) by done. nia.
Qed.

Lemma float_of_int_exact (n : Z) :
  0 ≤ n < 2 ^ 53 → float_of_int n = Return (Float false n 0).
Proof.
  intros Hn. unfold float_of_int.
  rewrite Z.abs_eq, round53_exact by lia.
  unfold too_large. rewrite Z.pow_0_r, Z.mul_1_r.
  destruct (Z.leb_spec (2 ^ 1024) n) as [Hbig|_].
  - exfalso. assert (2 ^ 53 < 2 ^ 1024) by (apply Z.pow_lt_mono_r; lia). lia.
  - cbn. by destruct (Z.ltb_spec n 0); [lia|].
Qed.

(** *** Doubles against exact fractions

    The double [m * 2^(e - k)] is the fraction [(m * 2^e) / 2^k]. *)

Lemma float_lt_1024_exact (m e k : Z) :
  0 ≤ m → 0 ≤ e → 0 < k →
  float_lt_1024 (Float false m (e - k)) = (m * 2 ^ e <? 1024 * 2 ^ k).
Proof.
  intros Hm He Hk. unfold float_lt_1024. cbn [neg mant expo].
  assert (0 < 2 ^ e) by (apply Z.pow_pos_nonneg; lia).
  assert (0 < 2 ^ k) by (apply Z.pow_pos_nonneg; lia).
  destruct (Z.leb_spec 0 (e - k)).
  - assert (He' : 2 ^ e = 2 ^ (e - k) * 2 ^ k).
    { rewrite <- Z.pow_add_r by lia. f_equal. lia. }
    rewrite He'.
    destruct (Z.ltb_spec (m * 2 ^ (e - k)) 1024),
      (Z.ltb_spec (m * (2 ^ (e - k) * 2 ^ k)) (1024 * 2 ^ k)); nia.
  - assert (Hk' : 2 ^ k = 2 ^ (- (e - k)) * 2 ^ e).
    { rewrite <- Z.pow_add_r by lia. f_equal. lia. }
    rewrite Hk'.
    destruct (Z.ltb_spec m (1024 * 2 ^ (- (e - k)))),
      (Z.ltb_spec (m * 2 ^ e) (1024 * (2 ^ (- (e - k)) * 2 ^ e))); nia.
Qed.

Lemma hundredths_exact (m e k : Z) :
  0 ≤ m → 0 ≤ e → 0 < k →
  hundredths (Float false m (e - k)) = round_half_even (100 * (m * 2 ^ e)) (2 ^ k).
Proof.
  intros Hm He Hk. unfold hundredths. cbn [neg mant expo].
  assert (0 < 2 ^ e) by (apply Z.pow_pos_nonneg; lia).
  assert (0 < 2 ^ k) by (apply Z.pow_pos_nonneg; lia).
  destruct (Z.leb_spec 0 (e - k)).
  - assert (He' : 2 ^ e = 2 ^ (e - k) * 2 ^ k).
    { rewrite <- Z.pow_add_r by lia. f_equal. lia. }
    rewrite He'.
    replace (100 * (m * (2 ^ (e - k) * 2 ^ k))) with (100 * m * 2 ^ (e - k) * 2 ^ k) by lia.
    by rewrite round_half_even_exact.
  - assert (Hk' : 2 ^ k = 2 ^ (- (e - k)) * 2 ^ e).
    { rewrite <- Z.pow_add_r by lia. f_equal. lia. }
    rewrite Hk', round_shift_half_even by lia.
    replace (100 * (m * 2 ^ e)) with (100 * m * 2 ^ e) by lia.
    rewrite round_half_even_scale; [done| |done].
    apply Z.pow_pos_nonneg; lia.
Qed.

Lemma format_2f_float_exact (m e k : Z) :
  0 ≤ m → 0 ≤ e → 0 < k →
  format_2f_float (Float false m (e - k))
  = two_decimals (round_half_even (100 * (m * 2 ^ e)) (2 ^ k)).
Proof.
  intros Hm He Hk. unfold format_2f_float. by rewrite hundredths_exact.
Qed.

Lemma format_2f_int (n : Z) :
  0 ≤ n →
  format_2f_float (Float false n 0) = two_decimals (round_half_even (100 * n) 1).
Proof.
  intros Hn. unfold format_2f_float, hundredths, round_half_even.
  cbn [neg mant expo]. rewrite Z.pow_0_r, Z.mul_1_r, Z.div_1_r, Z.mod_1_r.
  done.
Qed.

Lemma for_unit_cons (unit : string) (rest : list string) (size : num) :
  for_unit (unit :: rest) size
  = if lt_1024 size
    then text ← format_2f size; mret (text +:+ " " +:+ unit)
    else size' ← truediv_1024 size; for_unit rest size'.
Proof. reflexivity. Qed.

(** From the second unit on, the loop on doubles follows the exact one. *)
Lemma for_unit_float_exact (units : list string) (m e k : Z) :
  0 ≤ m → 0 ≤ e → 0 < k →
  for_unit units (Flt (Float false m (e - k)))
  = Return (let '(den, unit) := scale units (m * 2 ^ e) (2 ^ k) in
            two_decimals (round_half_even (100 * (m * 2 ^ e)) den) +:+ " " +:+ unit).
Proof.
  intros Hm He. revert k. induction units as [|unit rest IH]; intros k Hk.
  - cbn [for_unit format_2f scale]. by rewrite format_2f_float_exact.
  - rewrite for_unit_cons. cbn [scale lt_1024].
    rewrite float_lt_1024_exact by done.
    destruct (m * 2 ^ e <? 1024 * 2 ^ k).
    + cbn [format_2f]. by rewrite format_2f_float_exact.
    + cbn [truediv_1024]. unfold float_truediv_1024. cbn [neg mant expo].
      replace (e - k - 10) with (e - (k + 10)) by lia.
      change (mbind ?f (Return ?x)) with (f x).
      rewrite IH by lia.
      by rewrite Z.pow_add_r, (Z.mul_comm (2 ^ k)) by lia.
Qed.

(** C2. The size string of a summary is its byte count divided by [1024]
    once per unit step through B, KB, MB, GB, TB, PB, EB and printed with
    two decimal digits.  For every count from [0] up to [2^1033] the method
    returns the string of the exact quotient of the double nearest to the
    count, which is the count itself below [2^53]; the step to the next
    unit happens at [1024] and not before; and 0, 1536, 1048576 and
    1500000000000 bytes print as "0.00 B", "1.50 KB", "1.00 MB" and
    "1.36 TB". *)
Theorem human_readable_size_spec :
  (∀ self : S3Summary,
     0 ≤ total_bytes self < 2 ^ 1033 →
     human_readable_size self = Return (human_size (nearest_double (total_bytes self))))
  ∧ (∀ n : Z, 0 ≤ n < 2 ^ 53 → nearest_double n = n)
  ∧ (∀ b p c,
       human_readable_size (mkS3Summary b p c 0) = Return "0.00 B"
       ∧ human_readable_size (mkS3Summary b p c 1536) = Return "1.50 KB"
       ∧ human_readable_size (mkS3Summary b p c 1048576) = Return "1.00 MB"
       ∧ human_readable_size (mkS3Summary b p c 1500000000000) = Return "1.36 TB"
       ∧ human_readable_size (mkS3Summary b p c 1023) = Return "1023.00 B"
       ∧ human_readable_size (mkS3Summary b p c 1024) = Return "1.00 KB").
Proof.
  split; [|split; [exact nearest_double_exact|]].
  - intros [b p c n] Hn. cbn [total_bytes] in *.
    unfold human_readable_size, human_size. cbn [total_bytes].
    rewrite for_unit_cons. cbn [scale lt_1024]. rewrite Z.mul_1_r.
    destruct (Z.ltb_spec n 1024) as [Hlt|Hge].
    + assert (Hn53 : 0 ≤ n < 2 ^ 53) by (change (2 ^ 53) with 9007199254740992; lia).
      rewrite (nearest_double_exact n Hn53).
      destruct (Z.ltb_spec n 1024); [|lia].
      cbn [format_2f]. rewrite float_of_int_exact by done.
      change (mbind ?f (fmap ?g (Return ?x))) with (f (g x)).
      by rewrite format_2f_int by lia.
    + assert (Hbig : 1024 ≤ nearest_double n).
      { destruct (Z.lt_ge_cases n (2 ^ 53)) as [Hlt|Hge53].
        - by rewrite nearest_double_exact by lia.
        - pose proof (nearest_double_large n Hge53).
          change (2 ^ 53) with 9007199254740992 in *. lia. }
      destruct (Z.ltb_spec (nearest_double n) 1024); [lia|].
      cbn [truediv_1024]. rewrite int_truediv_1024_Return by done.
      change (mbind ?f (fmap ?g (Return ?x))) with (f (g x)).
      assert (Hm : 0 ≤ (round53 n 0).1 ∧ 0 ≤ (round53 n 0).2).
      { destruct (Z.lt_ge_cases n (2 ^ 53)) as [Hlt|Hge53].
        - rewrite round53_exact by lia. cbn. lia.
        - pose proof (round53_large n Hge53) as Hr. destruct (round53 n 0) as [m s].
          cbn [fst snd]. destruct Hr as (? & _ & ? & _).
          assert (0 < 2 ^ 52) by done. lia. }
      exact (for_unit_float_exact _ _ _ 10 (proj1 Hm) (proj2 Hm) ltac:(lia)).
  - intros b p c. repeat split; vm_compute; reflexivity.
Qed.

Lemma human_readable_size_spec_witness :
  0 ≤ 1152 < 2 ^ 1033
  ∧ human_readable_size (mkS3Summary "my-bucket" None 2 1152) = Return "1.12 KB".
Proof.
  split; [split; [lia|reflexivity]|].
  refine (proj1 human_readable_size_spec (mkS3Summary "my-bucket" None 2 1152) _).
  cbn [total_bytes]. split; [lia|reflexivity].
Defined.

(** Just below [2^60] the first quotient rounds up to [2^50]: the double
    that is printed is [1.0] in EB, where the exact quotient is below
    [1024] PB. *)
Example human_readable_size_rounds_first_quotient :
  human_readable_size (mkS3Summary "b" None 1 (2 ^ 60 - 1)) = Return "1.00 EB"
  ∧ nearest_double (2 ^ 60 - 1) = 2 ^ 60
  ∧ human_size (2 ^ 60 - 1) = "1024.00 PB".
Proof. vm_compute. by repeat split. Qed.

(** A negative count prints in bytes; a count from [2^1034] on does not
    fit a double. *)
Example human_readable_size_out_of_range :
  human_readable_size (mkS3Summary "b" None 1 (-7)) = Return "-7.00 B"
  ∧ human_readable_size (mkS3Summary "b" None 1 (2 ^ 1034))
    = Raise (Exn OverflowError "integer division result too large for a float" None).
Proof. vm_compute. by split. Qed.

End SizeFormat.

(* ===================================================================== *)
(** ** Running the monad                                                  *)
(* ===================================================================== *)

Lemma bind_Return {A B : Type} (m : M A) (f : A → M B) (w w' : World) (a : A) :
  m w = (Return a, w') → bind m f w = f a w'.
Proof. unfold bind. by intros ->. Qed.

Lemma bind_Raise {A B : Type} (m : M A) (f : A → M B) (w w' : World) (e : exn) :
  m w = (Raise e, w') → bind m f w = (Raise e, w').
Proof. unfold bind. by intros ->. Qed.

(** Unfold the monad and the calls down to the answers of the platform. *)
Ltac run :=
  unfold call_boto3_Session, call_client, call_paginate, call_makedirs,
    call_download_file, call_upload_file, try_except_ClientError,
    bind, raise_if, record_call in *;
  unfold ret, raise in *;
  cbn beta iota in *.

(* ===================================================================== *)
(** ** Properties of [summarize_bucket]                                   *)
(* ===================================================================== *)

Module Summary.

Lemma sum_sizes_cons (obj : S3Object) (objs : list S3Object) :
  sum_sizes (obj :: objs) = Size obj + sum_sizes objs.
Proof. reflexivity. Qed.

Lemma for_obj_spec (objs : list S3Object) (total count : Z) :
  for_obj objs (total, count)
  = (total + sum_sizes objs, count + Z.of_nat (length objs)).
Proof.
  revert total count. induction objs as [|obj objs IH]; intros total count.
  - cbn. f_equal; lia.
  - unfold for_obj in *. cbn [foldl]. rewrite IH, sum_sizes_cons. cbn [length].
    f_equal; lia.
Qed.

Lemma sum_sizes_app (xs ys : list S3Object) :
  sum_sizes (xs ++ ys) = sum_sizes xs + sum_sizes ys.
Proof.
  induction xs as [|x xs IH]; [done|].
  cbn [app]. rewrite !sum_sizes_cons. lia.
Qed.

Lemma for_page_spec (pages : list Page) (total count : Z) :
  for_page pages (total, count)
  = (total + sum_sizes (listed pages), count + Z.of_nat (length (listed pages))).
Proof.
  revert total count. induction pages as [|page pages IH]; intros total count.
  - cbn. f_equal; lia.
  - unfold for_page in *. cbn [foldl]. rewrite for_obj_spec, IH.
    unfold listed. cbn [mbind list_bind]. rewrite sum_sizes_app, length_app.
    f_equal; lia.
Qed.

Lemma sum_sizes_Permutation (xs ys : list S3Object) :
  xs ≡ₚ ys → sum_sizes xs = sum_sizes ys.
Proof. induction 1; rewrite ?sum_sizes_cons; lia. Qed.

Lemma listed_nil (pages : list Page) :
  Forall (λ page, Contents page = None ∨ Contents page = Some []) pages →
  listed pages = [].
Proof.
  induction 1 as [|page pages Hpage _ IH]; [done|].
  unfold listed in *. cbn [mbind list_bind]. rewrite IH.
  unfold page_get_Contents. by destruct Hpage as [-> | ->].
Qed.

(** What [summarize_bucket] does once the client is built and the listing
    has ended without an exception. *)
Lemma summarize_bucket_run (P : Platform) (bucket : string)
    (prefix aws_profile region : option string) (w w1 w2 : World)
    (s3 : S3Client) (pages : list Page) :
  _s3_client P aws_profile region w = (Return s3, w1) →
  call_paginate P s3 bucket (or_str prefix "") w1 = (Return (pages, None), w2) →
  summarize_bucket P bucket prefix aws_profile region w
  = (Return (mkS3Summary bucket prefix (Z.of_nat (length (listed pages)))
               (sum_sizes (listed pages))), w2).
Proof.
  intros Hclient Hpages. unfold summarize_bucket.
  rewrite (bind_Return _ _ _ _ _ Hclient), (bind_Return _ _ _ _ _ Hpages).
  cbn [fst snd]. rewrite for_page_spec. done.
Qed.

(** [summarize_bucket] in terms of the answers of the platform. *)
Lemma summarize_bucket_unfold (P : Platform) (bucket : string)
    (prefix aws_profile region : option string) (w : World) :
  summarize_bucket P bucket prefix aws_profile region w
  = match _s3_client P aws_profile region w with
    | (Raise e, w1) => (Raise e, w1)
    | (Return s3, w1) =>
        let w2 := log_call (paginate s3 bucket (or_str prefix "")) w1 in
        let listing := list_pages P s3 bucket (or_str prefix "") w2 in
        match listing.2 with
        | Some e => (Raise e, w2)
        | None =>
            (Return (mkS3Summary bucket prefix
                       (Z.of_nat (length (listed listing.1)))
                       (sum_sizes (listed listing.1))), w2)
        end
    end.
Proof.
  unfold summarize_bucket. unfold bind at 1.
  destruct (_s3_client P aws_profile region w) as [[s3|e] w1]; [|done].
  run. rewrite for_page_spec.
  by destruct (list_pages P s3 bucket (or_str prefix "") _) as [pages [e|]].
Qed.

(** C1. When the listing of a bucket under an optional prefix ends
    normally, [summarize_bucket] returns a summary whose [object_count] is
    the number of objects listed and whose [total_bytes] is the sum of their
    sizes.  The objects may be given as [objs] in any order and the pages
    may cut the listing anywhere: only the objects listed matter. *)
Theorem summarize_bucket_counts_and_sums (P : Platform) (bucket : string)
    (prefix aws_profile region : option string) (w w1 w2 : World)
    (s3 : S3Client) (pages : list Page) (objs : list S3Object) :
  _s3_client P aws_profile region w = (Return s3, w1) →
  call_paginate P s3 bucket (or_str prefix "") w1 = (Return (pages, None), w2) →
  listed pages ≡ₚ objs →
  summarize_bucket P bucket prefix aws_profile region w
  = (Return (mkS3Summary bucket prefix (Z.of_nat (length objs)) (sum_sizes objs)), w2).
Proof.
  intros Hclient Hpages Hperm.
  rewrite (summarize_bucket_run _ _ _ _ _ _ _ _ _ _ Hclient Hpages).
  by rewrite (Permutation_length Hperm), (sum_sizes_Permutation _ _ Hperm).
Qed.

Lemma summarize_bucket_counts_and_sums_witness :
  ∃ w2,
    summarize_bucket Demo.platform "my-bucket" (Some "logs/2025/") None None Demo.world
    = (Return (mkS3Summary "my-bucket" (Some "logs/2025/") 3 600), w2).
Proof.
  eexists.
  refine (summarize_bucket_counts_and_sums Demo.platform "my-bucket" (Some "logs/2025/")
            None None Demo.world _ _ _ Demo.logs
            [mkObject "logs/2025/c.log" 300; mkObject "logs/2025/a.log" 100;
             mkObject "logs/2025/b.log" 200] _ _ _).
  - vm_compute; reflexivity.
  - vm_compute; reflexivity.
  - cbn. symmetry. apply (Permutation_cons_app [_; _] []). reflexivity.
Defined.

(** C6. When the service lists no object under the bucket and prefix,
    [summarize_bucket] returns normally, with a summary of zero objects and
    zero bytes. *)
Theorem summarize_bucket_empty (P : Platform) (bucket : string)
    (prefix aws_profile region : option string) (w w1 w2 : World)
    (s3 : S3Client) (pages : list Page) :
  _s3_client P aws_profile region w = (Return s3, w1) →
  call_paginate P s3 bucket (or_str prefix "") w1 = (Return (pages, None), w2) →
  Forall (λ page, Contents page = None ∨ Contents page = Some []) pages →
  summarize_bucket P bucket prefix aws_profile region w
  = (Return (mkS3Summary bucket prefix 0 0), w2).
Proof.
  intros Hclient Hpages Hempty.
  rewrite (summarize_bucket_run _ _ _ _ _ _ _ _ _ _ Hclient Hpages).
  by rewrite (listed_nil _ Hempty).
Qed.

Lemma summarize_bucket_empty_witness :
  ∃ w2,
    summarize_bucket Demo.platform "my-bucket" (Some "empty/") None None Demo.world
    = (Return (mkS3Summary "my-bucket" (Some "empty/") 0 0), w2).
Proof.
  eexists.
  refine (summarize_bucket_empty Demo.platform "my-bucket" (Some "empty/")
            None None Demo.world _ _ _ [mkPage None] _ _ _).
  - vm_compute; reflexivity.
  - vm_compute; reflexivity.
  - repeat constructor.
Defined.

(** Three objects of 100, 200 and 300 bytes under [logs/2025/]: three
    objects, 600 bytes, printed as "600.00 B". *)
Example summarize_bucket_logs :
  let r := summarize_bucket Demo.platform "my-bucket" (Some "logs/2025/") None None
             Demo.world in
  r.1 = Return (mkS3Summary "my-bucket" (Some "logs/2025/") 3 600)
  ∧ (r.1 ≫= human_readable_size) = Return "600.00 B".
Proof. vm_compute. by split. Qed.

(** A listing that fails after its first page: the exception leaves
    [summarize_bucket] and no summary is returned. *)
Example summarize_bucket_listing_fails :
  (summarize_bucket Demo.platform "elsewhere" None None None Demo.world).1
  = Raise Demo.unreachable.
Proof. vm_compute. reflexivity. Qed.

(** C7. The empty prefix and no prefix are the same scan: the two calls of
    [summarize_bucket] make the same calls (the listing is asked with
    [Prefix=""] in both), leave the same state and agree on whether they
    return, on [object_count] and on [total_bytes]. *)
Theorem summarize_bucket_empty_prefix (P : Platform) (bucket : string)
    (aws_profile region : option string) (w : World) :
  let with_empty := summarize_bucket P bucket (Some "") aws_profile region w in
  let without := summarize_bucket P bucket None aws_profile region w in
  with_empty.2 = without.2
  ∧ object_count <$> with_empty.1 = object_count <$> without.1
  ∧ total_bytes <$> with_empty.1 = total_bytes <$> without.1
  ∧ match _s3_client P aws_profile region w with
    | (Return s3, w1) =>
        calls with_empty.2 = (calls w1 ++ [paginate s3 bucket ""])%list
        ∧ calls without.2 = (calls w1 ++ [paginate s3 bucket ""])%list
    | (Raise _, w1) => calls without.2 = calls w1
    end.
Proof.
  cbn zeta. rewrite !summarize_bucket_unfold.
  change (or_str (Some "") "") with "". change (or_str None "") with "".
  destruct (_s3_client P aws_profile region w) as [[s3|e] w1].
  - cbn zeta.
    destruct (list_pages P s3 bucket "" (log_call (paginate s3 bucket "") w1))
      as [pages [e|]]; cbn [fst snd]; by repeat split.
  - by repeat split.
Qed.

End Summary.

(* ===================================================================== *)
(** ** Properties of [download_object]                                    *)
(* ===================================================================== *)

Module Download.

(** [download_object] in terms of the answers of the platform. *)
Lemma download_object_unfold (P : Platform) (bucket key dest_path : string)
    (aws_profile region : option string) (w : World) :
  download_object P bucket key dest_path aws_profile region w
  = match _s3_client P aws_profile region w with
    | (Raise e, w1) => (Raise e, w1)
    | (Return s3, w1) =>
        let w2 := log_call (os_makedirs (parent dest_path) true) w1 in
        match makedirs_raises P (parent dest_path) w2 with
        | Some e => (Raise e, w2)
        | None =>
            let w3 := log_call (s3_download_file s3 bucket key dest_path)
                        (add_dirs (PosixPath.chain (parent dest_path)) w2) in
            match download_file_result P s3 bucket key dest_path w3 with
            | Return body => (Return dest_path, write_file dest_path body w3)
            | Raise e =>
                if isinstance_ClientError e
                then (Raise (download_error bucket key e), w3)
                else (Raise e, w3)
            end
        end
    end.
Proof.
  unfold download_object. unfold bind at 1.
  destruct (_s3_client P aws_profile region w) as [[s3|e] w1]; [|done].
  run. fold (parent dest_path).
  destruct (makedirs_raises P (parent dest_path) _) as [e|]; [done|].
  destruct (download_file_result P s3 bucket key dest_path _) as [body|e]; [done|].
  by destruct (isinstance_ClientError e).
Qed.

Section Download.
Context (P : Platform) (bucket key dest_path : string).
Context (aws_profile region : option string) (w w1 : World) (s3 : S3Client).

Let w2 : World := log_call (os_makedirs (parent dest_path) true) w1.
Let w3 : World :=
  log_call (s3_download_file s3 bucket key dest_path)
    (add_dirs (PosixPath.chain (parent dest_path)) w2).

(** C4 (amended). When the transfer raises a [ClientError], the error
    response of the service (object not found, access denied),
    [download_object] raises one [RuntimeError] whose message names the
    bucket, the key and [str(e)] and whose cause is the original
    exception; when it raises an exception of any other class, a
    connection failure or a timeout for instance, that exception leaves
    [download_object] as it is. *)
Theorem download_object_wraps_ClientError_only (e : exn) :
  _s3_client P aws_profile region w = (Return s3, w1) →
  makedirs_raises P (parent dest_path) w2 = None →
  download_file_result P s3 bucket key dest_path w3 = Raise e →
  download_object P bucket key dest_path aws_profile region w
  = (Raise match exc_type e with
           | ClientError | ServiceError _ =>
               Exn RuntimeError
                 ("Failed to download s3://" +:+ bucket +:+ "/" +:+ key +:+ ": " +:+ str e)
                 (Some e)
           | NoCredentialsError | ProfileNotFound
           | EndpointConnectionError | ConnectTimeoutError | ReadTimeoutError
           | FileNotFoundError | PermissionError | OSError
           | OverflowError | RuntimeError | OtherError _ => e
           end, w3).
Proof.
  intros Hclient Hdirs Hget. rewrite download_object_unfold, Hclient.
  cbn zeta. fold w2. rewrite Hdirs. fold w3. rewrite Hget.
  unfold isinstance_ClientError. by destruct (exc_type e).
Qed.

(** The successful run of [download_object], in terms of [parent] and
    [PosixPath.chain]. *)
Lemma download_object_succeeds (body : string) :
  _s3_client P aws_profile region w = (Return s3, w1) →
  makedirs_raises P (parent dest_path) w2 = None →
  download_file_result P s3 bucket key dest_path w3 = Return body →
  ∃ w',
    download_object P bucket key dest_path aws_profile region w = (Return dest_path, w')
    ∧ calls w' = (calls w1 ++ [os_makedirs (parent dest_path) true;
                               s3_download_file s3 bucket key dest_path])%list
    ∧ (PosixPath.dirname dest_path = "" → parent dest_path = ".")
    ∧ (PosixPath.dirname dest_path ≠ "" → parent dest_path = PosixPath.dirname dest_path)
    ∧ parent dest_path ∈ dirs w'
    ∧ (∀ dir, dir ∈ PosixPath.chain (parent dest_path) → dir ∈ dirs w')
    ∧ files w' !! dest_path = Some body.
Proof.
  intros Hclient Hdirs Hget. eexists. split.
  { rewrite download_object_unfold, Hclient. cbn zeta. fold w2. rewrite Hdirs.
    fold w3. by rewrite Hget. }
  assert (Hchain : ∀ dir, dir ∈ PosixPath.chain (parent dest_path) →
                          dir ∈ dirs (write_file dest_path body w3)).
  { intros dir Hin. cbn. set_solver. }
  repeat split.
  - cbn. by rewrite <- app_assoc.
  - unfold parent, str_or. by intros ->.
  - unfold parent, str_or. intros Hne.
    by destruct (String.eqb_spec (PosixPath.dirname dest_path) "").
  - apply Hchain. unfold PosixPath.chain.
    destruct (String.length (parent dest_path)); cbn [PosixPath.chain_from];
      [set_solver|]. case_match; set_solver.
  - done.
  - cbn. apply lookup_insert_eq.
Qed.
End Download.

Lemma download_object_wraps_ClientError_only_witness :
  (∃ w',
     download_object Demo.platform "my-bucket" "missing-key" "./out.bin" None None Demo.world
     = (Raise (Exn RuntimeError
                 "Failed to download s3://my-bucket/missing-key: An error occurred (404) when calling the HeadObject operation: Not Found"
                 (Some Demo.not_found)), w'))
  ∧ (∃ w',
       download_object Demo.platform "other-bucket" "missing-key" "./out.bin" None None
         Demo.world
       = (Raise Demo.unreachable, w')).
Proof.
  split; eexists.
  - refine (download_object_wraps_ClientError_only Demo.platform "my-bucket" "missing-key"
              "./out.bin" None None Demo.world _ _ Demo.not_found _ _ _);
      vm_compute; reflexivity.
  - refine (download_object_wraps_ClientError_only Demo.platform "other-bucket" "missing-key"
              "./out.bin" None None Demo.world _ _ Demo.unreachable _ _ _);
      vm_compute; reflexivity.
Defined.

(** C4 as stated fails for a network failure: botocore reports it with an
    [EndpointConnectionError], which [except ClientError] lets through. *)
Lemma download_object_network_failure_not_wrapped :
  let outcome := (download_object Demo.platform "other-bucket" "reports/q1.csv" "./out.bin"
                    None None Demo.world).1 in
  outcome = Raise (Exn EndpointConnectionError "Could not connect to the endpoint URL" None)
  ∧ outcome ≠ Raise (download_error "other-bucket" "reports/q1.csv" Demo.unreachable)
  ∧ ∀ msg cause, outcome ≠ Raise (Exn RuntimeError msg cause).
Proof. vm_compute. by repeat split. Qed.

(** Downloading to [a/b/c/file.txt] creates [a/b/c], [a/b] and [a]. *)
Example download_object_creates_chain :
  let w' := (download_object Demo.platform "my-bucket" "reports/q1.csv" "a/b/c/file.txt"
               None None Demo.world).2 in
  calls w' !! 2%nat = Some (os_makedirs "a/b/c" true)
  ∧ dirs w' = {[ "a/b/c"; "a/b"; "a"; "out" ]}
  ∧ files w' !! "a/b/c/file.txt" = Some "q,1".
Proof. vm_compute. repeat split. Qed.

(** Downloading to a bare file name asks for the directory ["."]. *)
Example download_object_bare_name :
  calls (download_object Demo.platform "my-bucket" "reports/q1.csv" "file.txt"
           None None Demo.world).2 !! 2%nat
  = Some (os_makedirs "." true).
Proof. vm_compute. reflexivity. Qed.

End Download.

(* ===================================================================== *)
(** ** Properties of [upload_file]                                        *)
(* ===================================================================== *)

Module Upload.

(** [upload_file] in terms of the answers of the platform. *)
Lemma upload_file_unfold (P : Platform) (src_path bucket key : string)
    (content_type sse acl aws_profile region : option string) (w : World) :
  upload_file P src_path bucket key content_type sse acl aws_profile region w
  = match _s3_client P aws_profile region w with
    | (Raise e, w1) => (Raise e, w1)
    | (Return s3, w1) =>
        let extra := forwarded content_type sse acl in
        let w2 := log_call (s3_upload_file s3 src_path bucket key extra) w1 in
        match upload_file_raises P s3 src_path bucket key extra w2 with
        | None => (Return (bucket, key), w2)
        | Some e =>
            if isinstance_ClientError e
            then (Raise (upload_error src_path bucket key e), w2)
            else (Raise e, w2)
        end
    end.
Proof.
  unfold upload_file, forwarded. unfold bind at 1.
  destruct (_s3_client P aws_profile region w) as [[s3|e] w1]; [|done].
  cbn zeta. destruct (bool_decide _); run;
    (destruct (upload_file_raises P s3 src_path bucket key _ _) as [e|]; [|done]);
    by destruct (isinstance_ClientError e).
Qed.

Lemma lookup_set_if_truthy_eq (name : string) (value : option string)
    (extra_args : gmap string string) :
  set_if_truthy name value extra_args !! name
  = if truthy value then value else extra_args !! name.
Proof.
  unfold set_if_truthy. destruct value as [v|]; [|done].
  destruct (truthy (Some v)); [apply lookup_insert_eq|done].
Qed.

Lemma lookup_set_if_truthy_ne (name other : string) (value : option string)
    (extra_args : gmap string string) :
  name ≠ other →
  set_if_truthy name value extra_args !! other = extra_args !! other.
Proof.
  intros Hne. unfold set_if_truthy. destruct value as [v|]; [|done].
  destruct (truthy (Some v)); [by apply lookup_insert_ne|done].
Qed.

Lemma dom_set_if_truthy (name : string) (value : option string)
    (extra_args : gmap string string) :
  dom (set_if_truthy name value extra_args) ⊆ {[ name ]} ∪ dom extra_args.
Proof.
  unfold set_if_truthy. destruct value as [v|]; [|set_solver].
  destruct (truthy (Some v)); [rewrite dom_insert_L|]; set_solver.
Qed.

(** Each of the three names is bound in [extra_args] exactly when its option
    is a non-empty string, and then to that string. *)
Lemma build_extra_args_lookup (content_type sse acl : option string) :
  let extra_args := build_extra_args content_type sse acl in
  extra_args !! "ContentType" = or_None content_type
  ∧ extra_args !! "ServerSideEncryption" = or_None sse
  ∧ extra_args !! "ACL" = or_None acl
  ∧ dom extra_args ⊆ {[ "ContentType"; "ServerSideEncryption"; "ACL" ]}.
Proof.
  unfold build_extra_args, or_None. cbn zeta. repeat split.
  - rewrite !lookup_set_if_truthy_ne, lookup_set_if_truthy_eq by done.
    by rewrite lookup_empty.
  - rewrite lookup_set_if_truthy_ne, lookup_set_if_truthy_eq by done.
    rewrite lookup_set_if_truthy_ne by done. by rewrite lookup_empty.
  - rewrite lookup_set_if_truthy_eq, !lookup_set_if_truthy_ne by done.
    by rewrite lookup_empty.
  - pose proof (dom_set_if_truthy "ACL" acl
                  (set_if_truthy "ServerSideEncryption" sse
                     (set_if_truthy "ContentType" content_type ∅))) as Hacl.
    pose proof (dom_set_if_truthy "ServerSideEncryption" sse
                  (set_if_truthy "ContentType" content_type ∅)) as Hsse.
    pose proof (dom_set_if_truthy "ContentType" content_type ∅) as Hct.
    rewrite dom_empty_L in Hct. set_solver.
Qed.

(** A name whose option is [None] or [""] leaves [extra_args] as it is. *)
Lemma set_if_truthy_falsy (name : string) (value : option string)
    (extra_args : gmap string string) :
  truthy value = false → set_if_truthy name value extra_args = extra_args.
Proof. unfold set_if_truthy. destruct value; [by intros ->|done]. Qed.

(** C3 (amended). The put call receives exactly the options supplied as
    non-empty strings, each under its own name and with the value given;
    an option that is unset or empty is absent from [ExtraArgs], no other
    name is ever present, and when none is forwarded the call is made
    without [ExtraArgs]. *)
Theorem upload_file_forwards_nonempty_options (P : Platform)
    (src_path bucket key : string)
    (content_type sse acl aws_profile region : option string)
    (w w1 : World) (s3 : S3Client) :
  _s3_client P aws_profile region w = (Return s3, w1) →
  ∃ extra : option (gmap string string),
    calls (upload_file P src_path bucket key content_type sse acl aws_profile region w).2
    = (calls w1 ++ [s3_upload_file s3 src_path bucket key extra])%list
    ∧ extra ≠ Some ∅
    ∧ default ∅ extra !! "ContentType" = (if truthy content_type then content_type else None)
    ∧ default ∅ extra !! "ServerSideEncryption" = (if truthy sse then sse else None)
    ∧ default ∅ extra !! "ACL" = (if truthy acl then acl else None)
    ∧ dom (default ∅ extra) ⊆ {[ "ContentType"; "ServerSideEncryption"; "ACL" ]}.
Proof.
  intros Hclient. exists (forwarded content_type sse acl). split.
  { rewrite upload_file_unfold, Hclient. cbn zeta.
    destruct (upload_file_raises P s3 src_path bucket key _ _) as [e|]; [|done].
    by destruct (isinstance_ClientError e). }
  destruct (build_extra_args_lookup content_type sse acl) as (Hct & Hsse & Hacl & Hdom).
  unfold forwarded, or_None in *. case_bool_decide as Hne.
  - cbn [default]. repeat split; try done. by intros [= Heq].
  - rewrite Hne in Hct, Hsse, Hacl, Hdom.
    cbn [default]. by repeat split.
Qed.

Lemma upload_file_forwards_nonempty_options_witness :
  ∃ extra : option (gmap string string),
    calls (upload_file Demo.platform "./report.csv" "my-bucket" "reports/2025/report.csv"
             (Some "text/csv") (Some "") None None None Demo.world).2 !! 2%nat
    = Some (s3_upload_file (mkClient (mkSession None None) "s3" (mkConfig 10 "standard" 5 60))
              "./report.csv" "my-bucket" "reports/2025/report.csv" extra)
    ∧ default ∅ extra !! "ContentType" = Some "text/csv"
    ∧ default ∅ extra !! "ServerSideEncryption" = None
    ∧ default ∅ extra !! "ACL" = None.
Proof.
  destruct (upload_file_forwards_nonempty_options Demo.platform "./report.csv" "my-bucket"
              "reports/2025/report.csv" (Some "text/csv") (Some "") None None None
              Demo.world (_s3_client Demo.platform None None Demo.world).2
              (mkClient (mkSession None None) "s3" (mkConfig 10 "standard" 5 60)) eq_refl)
    as (extra & Hcalls & _ & Hct & Hsse & Hacl & _).
  exists extra. rewrite Hcalls. repeat split; assumption.
Defined.

(** C3 as stated fails when an option is supplied as the empty string: the
    content type is given, yet the put call is made without [ExtraArgs]. *)
Lemma upload_file_empty_option_not_forwarded :
  calls (upload_file Demo.platform "./report.csv" "my-bucket" "reports/2025/report.csv"
           (Some "") None None None None Demo.world).2
  = [ boto3_Session None None;
      Session_client (mkSession None None) "s3" (mkConfig 10 "standard" 5 60);
      s3_upload_file (mkClient (mkSession None None) "s3" (mkConfig 10 "standard" 5 60))
        "./report.csv" "my-bucket" "reports/2025/report.csv" None ].
Proof. vm_compute. reflexivity. Qed.

(** C10. An option supplied as the empty string is treated as if it were
    unset: whichever of the three it is, and whatever the other arguments
    and the state, the call of [upload_file] behaves as the call without
    it, so the option is absent from the put call. *)
Theorem upload_file_empty_string_is_unset (P : Platform)
    (src_path bucket key : string)
    (content_type sse acl aws_profile region : option string) (w : World) :
  upload_file P src_path bucket key (Some "") sse acl aws_profile region w
  = upload_file P src_path bucket key None sse acl aws_profile region w
  ∧ upload_file P src_path bucket key content_type (Some "") acl aws_profile region w
    = upload_file P src_path bucket key content_type None acl aws_profile region w
  ∧ upload_file P src_path bucket key content_type sse (Some "") aws_profile region w
    = upload_file P src_path bucket key content_type sse None aws_profile region w
  ∧ build_extra_args (Some "") sse acl !! "ContentType" = None
  ∧ build_extra_args content_type (Some "") acl !! "ServerSideEncryption" = None
  ∧ build_extra_args content_type sse (Some "") !! "ACL" = None.
Proof.
  repeat split; try reflexivity.
  - apply (build_extra_args_lookup (Some "") sse acl).
  - apply (build_extra_args_lookup content_type (Some "") acl).
  - apply (build_extra_args_lookup content_type sse (Some "")).
Qed.

End Upload.

(* ===================================================================== *)
(** ** Which exceptions are caught                                        *)
(* ===================================================================== *)

Module Errors.

(** C5 (amended). Around the transfer call [download_object] catches
    [ClientError] and nothing else: a [ClientError] raised by the transfer,
    the error response of the service, is replaced by the [RuntimeError]
    that names the bucket and the key, also when the response says that
    the credentials are invalid or lack permission, and an exception of any
    other class leaves the function as it is.  In [download_object] and in
    [upload_file] alike, a failure to resolve credentials
    ([NoCredentialsError], [ProfileNotFound]) and a local file error
    ([FileNotFoundError], [PermissionError], [OSError]) raised by the
    transfer leave the function as they are, and so does any exception of
    client construction or of [os.makedirs], which are outside the [try]. *)
Theorem transfer_errors_caught_or_propagated (P : Platform) (e : exn) :
  (∀ bucket key dest_path aws_profile region w s3 w1,
     let w2 := log_call (os_makedirs (parent dest_path) true) w1 in
     let w3 := log_call (s3_download_file s3 bucket key dest_path)
                 (add_dirs (PosixPath.chain (parent dest_path)) w2) in
     (_s3_client P aws_profile region w = (Raise e, w1) →
      download_object P bucket key dest_path aws_profile region w = (Raise e, w1))
     ∧ (_s3_client P aws_profile region w = (Return s3, w1) →
        makedirs_raises P (parent dest_path) w2 = Some e →
        download_object P bucket key dest_path aws_profile region w = (Raise e, w2))
     ∧ (_s3_client P aws_profile region w = (Return s3, w1) →
        makedirs_raises P (parent dest_path) w2 = None →
        download_file_result P s3 bucket key dest_path w3 = Raise e →
        download_object P bucket key dest_path aws_profile region w
        = (Raise match exc_type e with
                 | ClientError | ServiceError _ =>
                     Exn RuntimeError
                       ("Failed to download s3://" +:+ bucket +:+ "/" +:+ key
                          +:+ ": " +:+ str e) (Some e)
                 | NoCredentialsError | ProfileNotFound
                 | EndpointConnectionError | ConnectTimeoutError | ReadTimeoutError
                 | FileNotFoundError | PermissionError | OSError
                 | OverflowError | RuntimeError | OtherError _ => e
                 end, w3)))
  ∧ (∀ src_path bucket key content_type sse acl aws_profile region w s3 w1,
       let extra := forwarded content_type sse acl in
       let w2 := log_call (s3_upload_file s3 src_path bucket key extra) w1 in
       (_s3_client P aws_profile region w = (Raise e, w1) →
        upload_file P src_path bucket key content_type sse acl aws_profile region w
        = (Raise e, w1))
       ∧ (_s3_client P aws_profile region w = (Return s3, w1) →
          upload_file_raises P s3 src_path bucket key extra w2 = Some e →
          match exc_type e with
          | NoCredentialsError | ProfileNotFound
          | FileNotFoundError | PermissionError | OSError =>
              upload_file P src_path bucket key content_type sse acl aws_profile region w
              = (Raise e, w2)
          | _ => True
          end)).
Proof.
  split.
  - intros bucket key dest_path aws_profile region w s3 w1 w2 w3.
    rewrite Download.download_object_unfold. repeat split.
    + by intros ->.
    + intros -> Hdirs. cbn zeta. fold w2. by rewrite Hdirs.
    + intros -> Hdirs Hget. cbn zeta. fold w2. rewrite Hdirs. fold w3. rewrite Hget.
      unfold isinstance_ClientError. by destruct (exc_type e).
  - intros src_path bucket key content_type sse acl aws_profile region w s3 w1 extra w2.
    rewrite Upload.upload_file_unfold. split.
    + by intros ->.
    + intros -> Hput. cbn zeta. fold extra. fold w2. rewrite Hput.
      unfold isinstance_ClientError. by destruct (exc_type e).
Qed.

(** A source file that does not exist: the [FileNotFoundError] of the
    transfer reaches the caller of [upload_file] as it is. *)
Lemma transfer_errors_caught_or_propagated_witness :
  ∃ w',
    upload_file Demo.platform "absent.csv" "my-bucket" "reports/absent.csv"
      None None None None None Demo.world
    = (Raise (Exn FileNotFoundError "[Errno 2] No such file or directory: 'absent.csv'" None),
       w').
Proof.
  eexists.
  refine (proj2 (proj2 (transfer_errors_caught_or_propagated Demo.platform Demo.no_such_file)
                   "absent.csv" "my-bucket" "reports/absent.csv" None None None None None
                   Demo.world
                   (mkClient (mkSession None None) "s3" (mkConfig 10 "standard" 5 60))
                   (_s3_client Demo.platform None None Demo.world).2) _ _);
    vm_compute; reflexivity.
Defined.

(** C5 as stated fails for credentials that lack permission: the service
    answers 403, the SDK raises a [ClientError], and [download_object]
    catches it and raises its [RuntimeError] instead. *)
Lemma download_object_wraps_missing_permission :
  let outcome := (download_object Demo.platform_without_permission "my-bucket"
                    "reports/q1.csv" "out/q1.csv" None None Demo.world).1 in
  outcome
  = Raise (Exn RuntimeError
             "Failed to download s3://my-bucket/reports/q1.csv: An error occurred (403) when calling the HeadObject operation: Forbidden"
             (Some Demo.forbidden))
  ∧ outcome ≠ Raise Demo.forbidden.
Proof. vm_compute. by split. Qed.

(** A destination directory that cannot be created: the [PermissionError]
    of [os.makedirs] reaches the caller of [download_object] and no transfer
    is attempted. *)
Example download_object_unwritable :
  let r := download_object Demo.platform "my-bucket" "reports/q1.csv" "/proc/q1.csv"
             None None Demo.world in
  r.1 = Raise Demo.read_only
  ∧ calls r.2 = [ boto3_Session None None;
                  Session_client (mkSession None None) "s3" (mkConfig 10 "standard" 5 60);
                  os_makedirs "/proc" true ].
Proof. vm_compute. by split. Qed.

(** A [ClientError] raised by the put call is replaced by the
    [RuntimeError] of [upload_file]. *)
Example upload_file_access_denied :
  (upload_file Demo.platform "./report.csv" "locked" "r.csv" None None None None None
     Demo.world).1
  = Raise (Exn RuntimeError
             "Failed to upload ./report.csv to s3://locked/r.csv: An error occurred (AccessDenied) when calling the PutObject operation: Access Denied"
             (Some Demo.access_denied)).
Proof. vm_compute. reflexivity. Qed.

(** A 403 answer to the put as boto3 reports it: the
    [S3UploadFailedError] is not a [ClientError] and reaches the caller of
    [upload_file] as it is. *)
Example upload_file_S3UploadFailedError :
  (upload_file Demo.platform_without_permission "./report.csv" "locked" "r.csv"
     None None None None None Demo.world).1
  = Raise Demo.upload_failed.
Proof. vm_compute. reflexivity. Qed.

End Errors.

(* ===================================================================== *)
(** ** The environment of the process                                     *)
(* ===================================================================== *)

Module Environment.

Lemma _session_environ (P : Platform) (aws_profile region : option string) (w : World) :
  environ (_session P aws_profile region w).2
  = match aws_profile with
    | Some name => if truthy aws_profile then <["AWS_PROFILE" := name]> (environ w)
                   else environ w
    | None => environ w
    end.
Proof.
  unfold _session. destruct aws_profile as [name|]; [destruct (truthy (Some name))|];
    run; unfold setenv; cbn beta iota; by destruct (Session_raises P _ _ _).
Qed.

Lemma _s3_client_environ (P : Platform) (aws_profile region : option string) (w : World) :
  environ (_s3_client P aws_profile region w).2
  = environ (_session P aws_profile region w).2.
Proof.
  unfold _s3_client. unfold bind at 1.
  destruct (_session P aws_profile region w) as [[sess|e] w1]; [|done].
  run. by destruct (client_raises P _ _ _ _).
Qed.

Lemma summarize_bucket_environ (P : Platform) (bucket : string)
    (prefix aws_profile region : option string) (w : World) :
  environ (summarize_bucket P bucket prefix aws_profile region w).2
  = environ (_s3_client P aws_profile region w).2.
Proof.
  rewrite Summary.summarize_bucket_unfold.
  destruct (_s3_client P aws_profile region w) as [[s3|e] w1]; [|done].
  cbn zeta. by destruct (snd (list_pages P _ _ _ _)).
Qed.

Lemma download_object_environ (P : Platform) (bucket key dest_path : string)
    (aws_profile region : option string) (w : World) :
  environ (download_object P bucket key dest_path aws_profile region w).2
  = environ (_s3_client P aws_profile region w).2.
Proof.
  rewrite Download.download_object_unfold.
  destruct (_s3_client P aws_profile region w) as [[s3|e] w1]; [|done].
  cbn zeta. destruct (makedirs_raises P _ _); [done|].
  destruct (download_file_result P _ _ _ _ _) as [body|e]; [done|].
  by destruct (isinstance_ClientError e).
Qed.

Lemma upload_file_environ (P : Platform) (src_path bucket key : string)
    (content_type sse acl aws_profile region : option string) (w : World) :
  environ (upload_file P src_path bucket key content_type sse acl aws_profile region w).2
  = environ (_s3_client P aws_profile region w).2.
Proof.
  rewrite Upload.upload_file_unfold.
  destruct (_s3_client P aws_profile region w) as [[s3|e] w1]; [|done].
  cbn zeta. destruct (upload_file_raises P _ _ _ _ _ _) as [e|]; [|done].
  by destruct (isinstance_ClientError e).
Qed.

(** C9. Every operation called with a profile name has set [AWS_PROFILE]
    to that name in [os.environ] when it ends, whether it returns or
    raises, and changes nothing else there; the assignment is made while
    the client is built.  Called without a profile (or with the empty
    string) an operation leaves [os.environ] as it was. *)
Theorem profile_sets_AWS_PROFILE (P : Platform) (region : option string) (w : World)
    (src_path dest_path bucket key : string) (prefix content_type sse acl : option string) :
  (∀ name : string, name ≠ "" →
     environ (_s3_client P (Some name) region w).2 = <["AWS_PROFILE" := name]> (environ w)
     ∧ environ (summarize_bucket P bucket prefix (Some name) region w).2
       = <["AWS_PROFILE" := name]> (environ w)
     ∧ environ (download_object P bucket key dest_path (Some name) region w).2
       = <["AWS_PROFILE" := name]> (environ w)
     ∧ environ (upload_file P src_path bucket key content_type sse acl (Some name) region w).2
       = <["AWS_PROFILE" := name]> (environ w))
  ∧ (∀ aws_profile : option string, aws_profile = None ∨ aws_profile = Some "" →
       environ (_s3_client P aws_profile region w).2 = environ w
       ∧ environ (summarize_bucket P bucket prefix aws_profile region w).2 = environ w
       ∧ environ (download_object P bucket key dest_path aws_profile region w).2 = environ w
       ∧ environ (upload_file P src_path bucket key content_type sse acl aws_profile region w).2
         = environ w).
Proof.
  split.
  - intros name Hname.
    rewrite summarize_bucket_environ, download_object_environ, upload_file_environ,
      _s3_client_environ, _session_environ.
    unfold truthy. apply String.eqb_neq in Hname. by rewrite Hname.
  - intros aws_profile Hnone.
    rewrite summarize_bucket_environ, download_object_environ, upload_file_environ,
      _s3_client_environ, _session_environ.
    by destruct Hnone as [-> | ->].
Qed.

Lemma profile_sets_AWS_PROFILE_witness :
  "staging" ≠ ""
  ∧ environ (download_object Demo.platform "my-bucket" "missing-key" "./out.bin"
               (Some "staging") None Demo.world).2
    = {[ "AWS_PROFILE" := "staging"; "HOME" := "/root" ]}.
Proof.
  split; [done|].
  exact (proj1 (proj2 (proj2 (proj1 (profile_sets_AWS_PROFILE Demo.platform None Demo.world
                                       "" "./out.bin" "my-bucket" "missing-key"
                                       None None None None)
                                "staging" ltac:(done))))).
Defined.

End Environment.

(* ===================================================================== *)
(** ** Facts about strings                                                *)
(* ===================================================================== *)

Module StringFacts.

Lemma app_cons (c : ascii) (s1 s2 : string) :
  String c s1 +:+ s2 = String c (s1 +:+ s2).
Proof. reflexivity. Qed.

Lemma app_nil_l (s : string) : "" +:+ s = s.
Proof. reflexivity. Qed.

Lemma app_assoc (s1 s2 s3 : string) : (s1 +:+ s2) +:+ s3 = s1 +:+ (s2 +:+ s3).
Proof. induction s1 as [|c s1 IH]; [done|]. by rewrite !app_cons, IH. Qed.

Lemma app_nil_r (s : string) : s +:+ "" = s.
Proof. induction s as [|c s IH]; [done|]. by rewrite app_cons, IH. Qed.

Lemma length_app (s1 s2 : string) :
  String.length (s1 +:+ s2) = (String.length s1 + String.length s2)%nat.
Proof.
  induction s1 as [|c s1 IH]; [done|]. rewrite app_cons. cbn [String.length].
  by rewrite IH.
Qed.

Lemma rev_app_app (s1 s2 s3 : string) :
  String.rev_app s1 (s2 +:+ s3) = String.rev_app s1 s2 +:+ s3.
Proof.
  revert s2. induction s1 as [|c s1 IH]; intros s2; [done|].
  cbn [String.rev_app]. by rewrite <- IH.
Qed.

Lemma rev_cons (c : ascii) (s : string) :
  String.rev (String c s) = String.rev s +:+ String c "".
Proof.
  unfold String.rev. cbn [String.rev_app]. by rewrite <- rev_app_app.
Qed.

Lemma rev_app (s1 s2 : string) :
  String.rev (s1 +:+ s2) = String.rev s2 +:+ String.rev s1.
Proof.
  induction s1 as [|c s1 IH].
  - by rewrite app_nil_l, app_nil_r.
  - by rewrite app_cons, !rev_cons, IH, app_assoc.
Qed.

Lemma rev_involutive (s : string) : String.rev (String.rev s) = s.
Proof.
  induction s as [|c s IH]; [done|].
  by rewrite rev_cons, rev_app, IH.
Qed.

End StringFacts.

(* ===================================================================== *)
(** ** More on [human_readable_size]: range, sign and overflow            *)
(* ===================================================================== *)

Module SizeEdges.

Import SizeSpec.

(** [human_readable_size] on a count from [0] up to [2^1033], in terms of
    the exact fraction. *)
Lemma human_readable_size_nearest (b : string) (p : option string) (c n : Z) :
  0 ≤ n < 2 ^ 1033 →
  human_readable_size (mkS3Summary b p c n) = Return (human_size (nearest_double n)).
Proof.
  intros Hn. unfold human_readable_size, human_size. cbn [total_bytes].
  rewrite SizeFormat.for_unit_cons. cbn [scale lt_1024]. rewrite Z.mul_1_r.
  destruct (Z.ltb_spec n 1024) as [Hlt|Hge].
  - assert (Hn53 : 0 ≤ n < 2 ^ 53) by (change (2 ^ 53) with 9007199254740992; lia).
    rewrite (SizeFormat.nearest_double_exact n Hn53).
    destruct (Z.ltb_spec n 1024); [|lia].
    cbn [format_2f]. rewrite SizeFormat.float_of_int_exact by done.
    change (mbind ?f (fmap ?g (Return ?x))) with (f (g x)).
    by rewrite SizeFormat.format_2f_int by lia.
  - assert (Hbig : 1024 ≤ nearest_double n).
    { destruct (Z.lt_ge_cases n (2 ^ 53)) as [Hlt|Hge53].
      - by rewrite SizeFormat.nearest_double_exact by lia.
      - pose proof (SizeFormat.nearest_double_large n Hge53).
        change (2 ^ 53) with 9007199254740992 in *. lia. }
    destruct (Z.ltb_spec (nearest_double n) 1024); [lia|].
    cbn [truediv_1024]. rewrite SizeFormat.int_truediv_1024_Return by done.
    change (mbind ?f (fmap ?g (Return ?x))) with (f (g x)).
    assert (Hm : 0 ≤ (round53 n 0).1 ∧ 0 ≤ (round53 n 0).2).
    { destruct (Z.lt_ge_cases n (2 ^ 53)) as [Hlt|Hge53].
      - rewrite SizeFormat.round53_exact by lia. cbn. lia.
      - pose proof (SizeFormat.round53_large n Hge53) as Hr.
        destruct (round53 n 0) as [m s].
        cbn [fst snd]. destruct Hr as (? & _ & ? & _).
        assert (0 < 2 ^ 52) by done. lia. }
    exact (SizeFormat.for_unit_float_exact _ _ _ 10 (proj1 Hm) (proj2 Hm) ltac:(lia)).
Qed.

Lemma nearest_double_nonneg (n : Z) : 0 ≤ n → 0 ≤ nearest_double n.
Proof.
  intros Hn. destruct (Z.lt_ge_cases n (2 ^ 53)) as [Hlt|Hge].
  - by rewrite SizeFormat.nearest_double_exact by lia.
  - pose proof (SizeFormat.nearest_double_large n Hge).
    assert (0 < 2 ^ 53) by done. lia.
Qed.

(** Rounding to the nearest integer keeps integer bounds. *)
Lemma round_half_even_bounds (x den lo hi : Z) :
  0 < den → lo * den ≤ x ≤ hi * den → lo ≤ round_half_even x den ≤ hi.
Proof.
  intros Hden [Hlo Hhi]. unfold round_half_even.
  pose proof (Z.div_mod x den ltac:(lia)) as Hdm.
  pose proof (Z.mod_pos_bound x den Hden) as Hr.
  set (q := x `div` den) in *. set (r := x `mod` den) in *.
  assert (lo ≤ q) by nia.
  destruct ((den <? 2 * r) || (2 * r =? den) && Z.odd q) eqn:Hup; [|nia].
  assert (0 < r).
  { apply orb_true_iff in Hup as [Hup|Hup].
    - apply Z.ltb_lt in Hup. lia.
    - apply andb_true_iff in Hup as [Hup _]. apply Z.eqb_eq in Hup. lia. }
  nia.
Qed.

Lemma round_half_even_lower (x den lo : Z) :
  0 < den → lo * den ≤ x → lo ≤ round_half_even x den.
Proof.
  intros Hden Hlo.
  destruct (Z.le_gt_cases x (lo * den + x)) as [Hx|Hx].
  - refine (proj1 (round_half_even_bounds x den lo (Z.max lo x) Hden _)). nia.
  - assert (lo < 0) by nia.
    refine (proj1 (round_half_even_bounds x den lo (Z.max 0 x) Hden _)). nia.
Qed.

Lemma round_half_even_upper (x den hi : Z) :
  0 < den → x ≤ hi * den → round_half_even x den ≤ hi.
Proof.
  intros Hden Hhi.
  refine (proj2 (round_half_even_bounds x den (Z.min (- Z.abs x) hi) hi Hden _)). nia.
Qed.

Lemma pretty_digit (d : Z) :
  0 ≤ d < 10 → ∃ c : ascii, pretty d = String c "" ∧ is_digit c = true.
Proof.
  intros Hd.
  assert (d = 0 ∨ d = 1 ∨ d = 2 ∨ d = 3 ∨ d = 4 ∨ d = 5 ∨ d = 6 ∨ d = 7 ∨ d = 8 ∨ d = 9)
    as Hcases by lia.
  repeat destruct Hcases as [->|Hcases]; [..|subst d]; by eexists.
Qed.

Lemma two_decimals_shape (h : Z) :
  ∃ d1 d2 : ascii,
    two_decimals h = pretty (h / 100) +:+ "." +:+ String d1 (String d2 "")
    ∧ is_digit d1 = true ∧ is_digit d2 = true.
Proof.
  unfold two_decimals.
  pose proof (Z.mod_pos_bound h 100 ltac:(lia)) as Hm.
  destruct (pretty_digit ((h `mod` 100) `div` 10)) as (d1 & -> & Hd1).
  { split; [apply Z.div_pos; lia|apply Z.div_lt_upper_bound; lia]. }
  destruct (pretty_digit ((h `mod` 100) `mod` 10)) as (d2 & -> & Hd2).
  { apply Z.mod_pos_bound. lia. }
  by exists d1, d2.
Qed.

Lemma round_half_even_1 (x : Z) : round_half_even x 1 = x.
Proof. unfold round_half_even. by rewrite Z.div_1_r, Z.mod_1_r. Qed.

(** The unit reached by the exact scale and the bounds of what is printed
    with it. *)
Lemma human_size_range (n : Z) :
  0 ≤ n →
  ∃ (h : Z) (unit : string),
    human_size n = two_decimals h +:+ " " +:+ unit
    ∧ unit ∈ ["B"; "KB"; "MB"; "GB"; "TB"; "PB"; "EB"]
    ∧ (unit = "B" → h = 100 * n ∧ n < 1024)
    ∧ (unit ≠ "B" → 100 ≤ h ∧ 1024 ≤ n)
    ∧ (unit ≠ "EB" → h ≤ 102400).
Proof.
  intros Hn. unfold human_size. cbn [scale].
  destruct (Z.ltb_spec n (1024 * 1)) as [HB|HB].
  { exists (100 * n), "B". rewrite round_half_even_1.
    split; [done|]. split; [set_solver|]. split; [intros _; lia|].
    split; [done|]. intros _. lia. }
  repeat match goal with
         | |- context [if ?a <? ?b then _ else _] => destruct (Z.ltb_spec a b)
         end;
    eexists _, _; (split; [reflexivity|]); (split; [set_solver|]);
    (split; [intros [=]|]);
    (split; [intros _; split; [apply round_half_even_lower|]; lia|]);
    first [ by intros [] | intros _; apply round_half_even_upper; lia ].
Qed.

(** X1. For a byte count from 0 up to [2^1033], [human_readable_size]
    returns a number with exactly two digits after the point, a space and
    one of the seven units.  Bytes are used exactly for counts below 1024
    and then print the count itself; with any larger unit the number is at
    least 1.00, and with any unit but EB it is at most 1024.00. *)
Theorem human_readable_size_range (self : S3Summary) :
  0 ≤ total_bytes self < 2 ^ 1033 →
  ∃ (h : Z) (unit : string),
    human_readable_size self = Return (two_decimals h +:+ " " +:+ unit)
    ∧ (∃ d1 d2 : ascii,
         two_decimals h = pretty (h / 100) +:+ "." +:+ String d1 (String d2 "")
         ∧ is_digit d1 = true ∧ is_digit d2 = true)
    ∧ unit ∈ ["B"; "KB"; "MB"; "GB"; "TB"; "PB"; "EB"]
    ∧ (unit = "B" ↔ total_bytes self < 1024)
    ∧ (unit = "B" → h = 100 * total_bytes self)
    ∧ (unit ≠ "B" → 100 ≤ h)
    ∧ (unit ≠ "EB" → h ≤ 102400).
Proof.
  destruct self as [b p c n]. cbn [total_bytes]. intros Hn.
  rewrite human_readable_size_nearest by done.
  destruct (human_size_range (nearest_double n) (nearest_double_nonneg n (proj1 Hn)))
    as (h & unit & Hsize & Hunit & HB & HnB & HnE).
  assert (Hsmall : nearest_double n < 1024 ↔ n < 1024).
  { destruct (Z.lt_ge_cases n (2 ^ 53)) as [Hlt|Hge].
    - by rewrite SizeFormat.nearest_double_exact by lia.
    - pose proof (SizeFormat.nearest_double_large n Hge).
      change (2 ^ 53) with 9007199254740992 in *. lia. }
  exists h, unit. rewrite Hsize. split; [done|].
  split; [apply two_decimals_shape|]. split; [done|].
  assert (HBiff : unit = "B" ↔ n < 1024).
  { split.
    - intros Hu. apply Hsmall. by apply HB.
    - intros Hlt. destruct (decide (unit = "B")) as [|Hne]; [done|].
      apply HnB in Hne. lia. }
  split; [done|]. split.
  - intros Hu. destruct (HB Hu) as [-> _].
    rewrite SizeFormat.nearest_double_exact; [done|].
    apply HBiff in Hu. change (2 ^ 53) with 9007199254740992. lia.
  - split; [by intros Hu; apply HnB|done].
Qed.

Lemma human_readable_size_range_witness :
  ∃ (h : Z) (unit : string),
    human_readable_size (mkS3Summary "my-bucket" None 1 1048575)
    = Return (two_decimals h +:+ " " +:+ unit)
    ∧ unit ≠ "B" ∧ 100 ≤ h.
Proof.
  destruct (human_readable_size_range (mkS3Summary "my-bucket" None 1 1048575))
    as (h & unit & Hrun & _ & _ & HB & _ & HnB & _).
  { cbn [total_bytes]. split; [lia|reflexivity]. }
  assert (Hunit : unit ≠ "B").
  { intros Hu. apply HB in Hu. cbn [total_bytes] in Hu. lia. }
  exists h, unit. split; [exact Hrun|]. split; [exact Hunit|exact (HnB Hunit)].
Defined.

(** X2. A negative byte count is never scaled: down to [-2^53] it prints
    in bytes, as a minus sign, the magnitude and [.00]. *)
Theorem human_readable_size_negative (self : S3Summary) :
  - 2 ^ 53 < total_bytes self < 0 →
  human_readable_size self
  = Return ("-" +:+ pretty (- total_bytes self) +:+ ".00 B").
Proof.
  destruct self as [b p c n]. cbn [total_bytes]. intros Hn.
  unfold human_readable_size. cbn [total_bytes].
  rewrite SizeFormat.for_unit_cons. cbn [lt_1024].
  destruct (Z.ltb_spec n 1024); [|lia].
  cbn [format_2f]. unfold float_of_int.
  rewrite SizeFormat.round53_exact by lia.
  assert (Hsmall : too_large (Z.abs n) 0 = false).
  { unfold too_large. rewrite Z.pow_0_r, Z.mul_1_r.
    assert (2 ^ 53 < 2 ^ 1024) by (apply Z.pow_lt_mono_r; lia).
    destruct (Z.leb_spec (2 ^ 1024) (Z.abs n)); [lia|done]. }
  rewrite Hsmall. destruct (Z.ltb_spec n 0); [|lia].
  change (mbind ?f (fmap ?g (Return ?x))) with (f (g x)).
  unfold format_2f_float, hundredths, two_digits. cbn [neg mant expo].
  rewrite Z.pow_0_r, Z.mul_1_r. cbn [Z.leb Z.compare].
  replace (100 * Z.abs n) with (- n * 100) by lia.
  rewrite Z.div_mul, Z.mod_mul by lia.
  change (mret ?x) with (Return x). f_equal.
  rewrite !StringFacts.app_assoc. done.
Qed.

Lemma human_readable_size_negative_witness :
  human_readable_size (mkS3Summary "my-bucket" None 0 (-7)) = Return "-7.00 B".
Proof.
  refine (human_readable_size_negative (mkS3Summary "my-bucket" None 0 (-7)) _).
  cbn [total_bytes]. split; reflexivity.
Defined.

(** X3. From [2^1034] bytes on the first division has no double to
    return: [human_readable_size] raises [OverflowError] and returns no
    string. *)
Theorem human_readable_size_overflow (self : S3Summary) :
  2 ^ 1034 ≤ total_bytes self →
  human_readable_size self
  = Raise (Exn OverflowError "integer division result too large for a float" None).
Proof.
  destruct self as [b p c n]. cbn [total_bytes]. intros Hn.
  assert (H53 : 2 ^ 53 < 2 ^ 1034) by (apply Z.pow_lt_mono_r; lia).
  assert (H1024 : 0 < 2 ^ 1024) by (apply Z.pow_pos_nonneg; lia).
  unfold human_readable_size. cbn [total_bytes].
  rewrite SizeFormat.for_unit_cons. cbn [lt_1024].
  destruct (Z.ltb_spec n 1024) as [Hlt|_].
  { change (2 ^ 1034) with (2 ^ 10 * 2 ^ 1024) in Hn. lia. }
  cbn [truediv_1024]. unfold int_truediv_1024.
  rewrite Z.abs_eq, SizeFormat.round53_exponent by lia.
  pose proof (SizeFormat.round53_large n ltac:(lia)) as Hr.
  destruct (round53 n 0) as [m s]. destruct Hr as (Hs & Hlog & Hm & _).
  cbn [fst snd].
  assert (Hl : 1034 ≤ Z.log2 n) by (apply Z.log2_le_pow2; lia).
  assert (Hbig : too_large m (-10 + s) = true).
  { unfold too_large. apply andb_true_iff. split; [apply Z.leb_le; lia|].
    apply Z.leb_le.
    assert (Hp : 2 ^ 972 ≤ 2 ^ (-10 + s)) by (apply Z.pow_le_mono_r; lia).
    change (2 ^ 1024) with (2 ^ 52 * 2 ^ 972).
    assert (0 < 2 ^ 972) by (apply Z.pow_pos_nonneg; lia).
    assert (0 < 2 ^ 52) by done. nia. }
  by rewrite Hbig.
Qed.

Lemma human_readable_size_overflow_witness :
  human_readable_size (mkS3Summary "my-bucket" None 1 (2 ^ 1034))
  = Raise (Exn OverflowError "integer division result too large for a float" None).
Proof.
  refine (human_readable_size_overflow (mkS3Summary "my-bucket" None 1 (2 ^ 1034)) _).
  cbn [total_bytes]. apply Z.le_refl.
Defined.

End SizeEdges.

(* ===================================================================== *)
(** ** Client construction                                                *)
(* ===================================================================== *)

Module Client.

(** [_s3_client] in terms of the answers of the platform. *)
Lemma _s3_client_unfold (P : Platform) (aws_profile region : option string) (w : World) :
  _s3_client P aws_profile region w
  = let w1 := log_call (session_call aws_profile region) (with_profile aws_profile w) in
    match Session_raises P (or_None aws_profile) (or_None region) w1 with
    | Some e => (Raise e, w1)
    | None =>
        let w2 := log_call (client_call aws_profile region) w1 in
        match client_raises P (session_for aws_profile region) "s3" fixed_config w2 with
        | Some e => (Raise e, w2)
        | None => (Return (client_for aws_profile region), w2)
        end
    end.
Proof.
  unfold _s3_client, _session, with_profile, session_call, client_call, client_for,
    session_for, fixed_config.
  destruct aws_profile as [name|]; [destruct (truthy (Some name))|];
    run; unfold setenv; cbn beta iota;
    (destruct (Session_raises P _ _ _) as [e|]; [done|]);
    by destruct (client_raises P _ _ _ _).
Qed.

Lemma with_profile_frame (aws_profile : option string) (w : World) :
  dirs (with_profile aws_profile w) = dirs w
  ∧ files (with_profile aws_profile w) = files w
  ∧ calls (with_profile aws_profile w) = calls w.
Proof.
  unfold with_profile. destruct aws_profile as [name|]; [|done].
  by destruct (truthy (Some name)).
Qed.

(** What [_s3_client] leaves behind, whatever its outcome. *)
Lemma _s3_client_effects (P : Platform) (aws_profile region : option string) (w : World) :
  let r := _s3_client P aws_profile region w in
  dirs r.2 = dirs w ∧ files r.2 = files w
  ∧ match r.1 with
    | Return s3 =>
        s3 = client_for aws_profile region
        ∧ made w r.2 [session_call aws_profile region; client_call aws_profile region]
    | Raise _ =>
        made w r.2 [session_call aws_profile region]
        ∨ made w r.2 [session_call aws_profile region; client_call aws_profile region]
    end.
Proof.
  cbn zeta. rewrite _s3_client_unfold. cbn zeta.
  destruct (with_profile_frame aws_profile w) as (Hd & Hf & Hc).
  unfold made.
  destruct (Session_raises P _ _ _) as [e|]; cbn [fst snd log_call dirs files calls].
  { rewrite Hd, Hf, Hc. by repeat split; try left. }
  destruct (client_raises P _ _ _ _) as [e|]; cbn [fst snd log_call dirs files calls];
    rewrite Hd, Hf, Hc, <- ?(assoc_L (++)); repeat split; by try right.
Qed.

(** X4. Every client [_s3_client] returns is an ["s3"] client with at most
    10 attempts in standard retry mode, a connect timeout of 5 and a read
    timeout of 60, made from a session whose profile and region are the
    arguments with the empty string turned into [None]: an empty profile or
    region never reaches the SDK.  Building it makes the two construction
    calls and touches no local file or directory. *)
Theorem _s3_client_fixed_settings (P : Platform) (aws_profile region : option string)
    (w w1 : World) (s3 : S3Client) :
  _s3_client P aws_profile region w = (Return s3, w1) →
  service_name s3 = "s3"
  ∧ client_config s3 = mkConfig 10 "standard" 5 60
  ∧ profile_name (client_session s3) = (if truthy aws_profile then aws_profile else None)
  ∧ region_name (client_session s3) = (if truthy region then region else None)
  ∧ profile_name (client_session s3) ≠ Some ""
  ∧ region_name (client_session s3) ≠ Some ""
  ∧ calls w1
    = (calls w ++ [boto3_Session (profile_name (client_session s3))
                     (region_name (client_session s3));
                   Session_client (client_session s3) "s3" (client_config s3)])%list
  ∧ dirs w1 = dirs w ∧ files w1 = files w.
Proof.
  intros Hrun. pose proof (_s3_client_effects P aws_profile region w) as Heff.
  cbn zeta in Heff. rewrite Hrun in Heff. cbn [fst snd] in Heff.
  destruct Heff as (Hd & Hf & -> & Hcalls).
  assert (Hne : ∀ o : option string, or_None o ≠ Some "").
  { intros [s|]; unfold or_None, truthy; [|done].
    destruct (String.eqb_spec s ""); cbn; [done|congruence]. }
  repeat split; try done; apply Hne.
Qed.

Lemma _s3_client_fixed_settings_witness :
  ∃ s3 w1,
    _s3_client Demo.platform (Some "") (Some "eu-west-1") Demo.world = (Return s3, w1)
    ∧ profile_name (client_session s3) = None
    ∧ region_name (client_session s3) = Some "eu-west-1"
    ∧ client_config s3 = mkConfig 10 "standard" 5 60.
Proof.
  eexists _, _. split; [vm_compute; reflexivity|].
  destruct (_s3_client_fixed_settings Demo.platform (Some "") (Some "eu-west-1")
              Demo.world _ _ eq_refl) as (_ & Hcfg & Hp & Hr & _).
  split; [exact Hp|]. split; [exact Hr|exact Hcfg].
Defined.

End Client.

(* ===================================================================== *)
(** ** More on [summarize_bucket]: failures, invariants, calls made       *)
(* ===================================================================== *)

Module SummaryEdges.

Lemma sum_sizes_nonneg (objs : list S3Object) :
  Forall (λ obj, 0 ≤ Size obj) objs → 0 ≤ sum_sizes objs.
Proof.
  induction 1 as [|obj objs Hobj _ IH]; [done|].
  rewrite Summary.sum_sizes_cons. lia.
Qed.

(** X5. [summarize_bucket] catches nothing and returns no partial result:
    when client construction raises, or when the listing raises after any
    number of pages, that exception leaves the function as it is and the
    objects counted so far are lost. *)
Theorem summarize_bucket_propagates (P : Platform) (bucket : string)
    (prefix aws_profile region : option string) (w : World) (e : exn) :
  (∀ w1, _s3_client P aws_profile region w = (Raise e, w1) →
         summarize_bucket P bucket prefix aws_profile region w = (Raise e, w1))
  ∧ (∀ s3 w1 pages w2,
       _s3_client P aws_profile region w = (Return s3, w1) →
       call_paginate P s3 bucket (or_str prefix "") w1 = (Return (pages, Some e), w2) →
       summarize_bucket P bucket prefix aws_profile region w = (Raise e, w2)).
Proof.
  split.
  - intros w1 Hclient. by rewrite Summary.summarize_bucket_unfold, Hclient.
  - intros s3 w1 pages w2 Hclient Hpages.
    rewrite Summary.summarize_bucket_unfold, Hclient. cbn zeta.
    unfold call_paginate, bind, record_call in Hpages. cbn beta iota in Hpages.
    injection Hpages as Hlist Hw. rewrite Hlist. cbn [snd]. by rewrite Hw.
Qed.

Lemma summarize_bucket_propagates_witness :
  ∃ w2,
    summarize_bucket Demo.platform "elsewhere" None None None Demo.world
    = (Raise Demo.unreachable, w2).
Proof.
  eexists.
  refine (proj2 (summarize_bucket_propagates Demo.platform "elsewhere" None None None
                   Demo.world Demo.unreachable)
            _ _ [mkPage (Some [mkObject "x" 7])] _ _ _);
    vm_compute; reflexivity.
Defined.

(** X6. A summary that [summarize_bucket] returns never has a negative
    [object_count]; when the sizes listed are not negative, neither is
    [total_bytes], and when the total is below [2^1033]
    [human_readable_size] returns a string for it. *)
Theorem summarize_bucket_summary_prints (P : Platform) (bucket : string)
    (prefix aws_profile region : option string) (w w2 : World) (summary : S3Summary) :
  summarize_bucket P bucket prefix aws_profile region w = (Return summary, w2) →
  0 ≤ object_count summary
  ∧ (∀ s3 w1 pages,
       _s3_client P aws_profile region w = (Return s3, w1) →
       call_paginate P s3 bucket (or_str prefix "") w1 = (Return (pages, None), w2) →
       Forall (λ obj, 0 ≤ Size obj) (listed pages) →
       0 ≤ total_bytes summary
       ∧ (total_bytes summary < 2 ^ 1033 →
          ∃ text, human_readable_size summary = Return text)).
Proof.
  intros Hrun. split.
  - rewrite Summary.summarize_bucket_unfold in Hrun.
    destruct (_s3_client P aws_profile region w) as [[s3|e] w1]; [|done].
    cbn zeta in Hrun.
    destruct (snd (list_pages P s3 bucket (or_str prefix "") _)) as [e|]; [done|].
    injection Hrun as <- _. cbn [object_count]. lia.
  - intros s3 w1 pages Hclient Hpages Hsizes.
    rewrite (Summary.summarize_bucket_run _ _ _ _ _ _ _ _ _ _ Hclient Hpages) in Hrun.
    injection Hrun as <-. cbn [total_bytes].
    pose proof (sum_sizes_nonneg _ Hsizes) as Hnonneg.
    split; [done|]. intros Hlt. eexists.
    by apply SizeEdges.human_readable_size_nearest.
Qed.

Lemma summarize_bucket_summary_prints_witness :
  0 ≤ 3
  ∧ ∃ text,
      human_readable_size (mkS3Summary "my-bucket" (Some "logs/2025/") 3 600) = Return text.
Proof.
  pose proof (summarize_bucket_summary_prints Demo.platform "my-bucket"
                (Some "logs/2025/") None None Demo.world
                (summarize_bucket Demo.platform "my-bucket" (Some "logs/2025/") None None
                   Demo.world).2
                (mkS3Summary "my-bucket" (Some "logs/2025/") 3 600) eq_refl)
    as [Hcount Hrest].
  split; [exact Hcount|].
  refine (proj2 (Hrest _ _ Demo.logs eq_refl eq_refl _) _).
  - repeat constructor; cbn; lia.
  - reflexivity.
Defined.

(** X7. [summarize_bucket] only reads: whatever its outcome it leaves the
    local files and directories as they were, and the calls it makes are
    the two of client construction and then at most one listing, asked for
    the bucket with the prefix or the empty string.  It never calls
    [os.makedirs] or a transfer. *)
Theorem summarize_bucket_read_only (P : Platform) (bucket : string)
    (prefix aws_profile region : option string) (w : World) :
  let r := summarize_bucket P bucket prefix aws_profile region w in
  dirs r.2 = dirs w
  ∧ files r.2 = files w
  ∧ (made w r.2 [session_call aws_profile region]
     ∨ made w r.2 [session_call aws_profile region; client_call aws_profile region]
     ∨ made w r.2 [session_call aws_profile region; client_call aws_profile region;
                   paginate (client_for aws_profile region) bucket (or_str prefix "")])
  ∧ (∀ summary, r.1 = Return summary →
       made w r.2 [session_call aws_profile region; client_call aws_profile region;
                   paginate (client_for aws_profile region) bucket (or_str prefix "")]).
Proof.
  cbn zeta. rewrite Summary.summarize_bucket_unfold.
  pose proof (Client._s3_client_effects P aws_profile region w) as Heff.
  cbn zeta in Heff.
  destruct (_s3_client P aws_profile region w) as [[s3|e] w1]; cbn [fst snd] in *.
  - destruct Heff as (Hd & Hf & -> & Hcalls). unfold made in *. cbn zeta.
    assert (Hthree : calls (log_call (paginate (client_for aws_profile region) bucket
                                        (or_str prefix "")) w1)
                     = (calls w ++ [session_call aws_profile region;
                                    client_call aws_profile region;
                                    paginate (client_for aws_profile region) bucket
                                      (or_str prefix "")])%list).
    { cbn [log_call calls]. rewrite Hcalls, <- (assoc_L (++)). done. }
    destruct (snd (list_pages P (client_for aws_profile region) bucket (or_str prefix "") _))
      as [e|]; cbn [fst snd log_call dirs files]; repeat split; auto.
  - destruct Heff as (Hd & Hf & Hcalls).
    repeat split; [done|done| |done]. destruct Hcalls; auto.
Qed.

Lemma summarize_bucket_read_only_witness :
  made Demo.world
    (summarize_bucket Demo.platform "my-bucket" (Some "logs/2025/") None None Demo.world).2
    [ session_call None None; client_call None None;
      paginate (client_for None None) "my-bucket" "logs/2025/" ].
Proof.
  exact (proj2 (proj2 (proj2 (summarize_bucket_read_only Demo.platform "my-bucket"
                                (Some "logs/2025/") None None Demo.world)))
           (mkS3Summary "my-bucket" (Some "logs/2025/") 3 600) eq_refl).
Defined.

End SummaryEdges.

(* ===================================================================== *)
(** ** The directory of a destination path                                *)
(* ===================================================================== *)

Module Dirname.

Import PosixPath.

Lemma rfind_no_sep (name : string) : no_sep name = true → rfind_sep_succ name = O.
Proof.
  induction name as [|c name IH]; [done|]. cbn [no_sep rfind_sep_succ].
  intros [Hc Hname]%andb_true_iff. rewrite (IH Hname).
  by destruct (Ascii.eqb c sep).
Qed.

Lemma rfind_joined (dir name : string) :
  no_sep name = true →
  rfind_sep_succ (dir +:+ String sep name) = S (String.length dir).
Proof.
  intros Hname. induction dir as [|c dir IH].
  - rewrite StringFacts.app_nil_l. cbn [rfind_sep_succ String.length].
    rewrite (rfind_no_sep name Hname). by rewrite Ascii.eqb_refl.
  - rewrite StringFacts.app_cons. cbn [rfind_sep_succ String.length]. by rewrite IH.
Qed.

Lemma substring_joined (dir name : string) :
  substring 0 (S (String.length dir)) (dir +:+ String sep name) = dir +:+ String sep "".
Proof.
  induction dir as [|c dir IH].
  - rewrite !StringFacts.app_nil_l. cbn. by destruct name.
  - rewrite !StringFacts.app_cons. cbn [String.length substring]. by rewrite IH.
Qed.

Lemma all_sep_app (s1 s2 : string) : all_sep (s1 +:+ s2) = all_sep s1 && all_sep s2.
Proof.
  induction s1 as [|c s1 IH]; [done|].
  rewrite StringFacts.app_cons. cbn [all_sep]. by rewrite IH, andb_assoc.
Qed.

Lemma all_sep_rev (s : string) : all_sep (String.rev s) = all_sep s.
Proof.
  induction s as [|c s IH]; [done|].
  rewrite StringFacts.rev_cons, all_sep_app, IH. cbn [all_sep].
  by rewrite andb_true_r, andb_comm.
Qed.

(** The directory of [dir/name] is [dir]. *)
Lemma dirname_joined (dir name : string) :
  dir ≠ "" → ends_with_sep dir = false → no_sep name = true →
  dirname (dir +:+ String sep name) = dir.
Proof.
  intros Hdir Hend Hname. unfold dirname.
  rewrite rfind_joined, substring_joined by done.
  unfold ends_with_sep in Hend.
  destruct (String.rev dir) as [|c r] eqn:Hrev.
  { apply (f_equal String.rev) in Hrev. rewrite StringFacts.rev_involutive in Hrev.
    by destruct Hdir. }
  assert (Hall : all_sep (dir +:+ String sep "") = false).
  { rewrite all_sep_app, <- (all_sep_rev dir), Hrev. cbn [all_sep]. by rewrite Hend. }
  rewrite Hall.
  destruct (String.eqb_spec (dir +:+ String sep "") "") as [Hnil|_].
  { destruct dir; discriminate Hnil. }
  cbn [negb andb]. unfold rstrip_sep.
  rewrite StringFacts.rev_app, Hrev.
  change (String.rev (String sep "")) with (String sep "").
  rewrite StringFacts.app_cons, StringFacts.app_nil_l. cbn [lstrip_sep].
  rewrite Ascii.eqb_refl, Hend, <- Hrev. apply StringFacts.rev_involutive.
Qed.

(** A path without separator has no directory. *)
Lemma dirname_bare (name : string) : no_sep name = true → dirname name = "".
Proof.
  intros Hname. unfold dirname. rewrite (rfind_no_sep name Hname).
  by destruct name.
Qed.

(** X8. The directory [download_object] asks [os.makedirs] for: for a
    destination [dir/name], where [name] has no slash and [dir] is not
    empty and does not end with a slash, it is [dir]; for a destination
    without any slash it is ["."].  In both cases the request is the first
    call after client construction. *)
Theorem download_object_makedirs_argument (P : Platform) (bucket key : string)
    (aws_profile region : option string) (w w1 : World) (s3 : S3Client)
    (dir name : string) :
  no_sep name = true →
  _s3_client P aws_profile region w = (Return s3, w1) →
  (dir ≠ "" → ends_with_sep dir = false →
   ∃ trace,
     calls (download_object P bucket key (dir +:+ "/" +:+ name) aws_profile region w).2
     = (calls w1 ++ os_makedirs dir true :: trace)%list)
  ∧ ∃ trace,
      calls (download_object P bucket key name aws_profile region w).2
      = (calls w1 ++ os_makedirs "." true :: trace)%list.
Proof.
  intros Hname Hclient.
  assert (Hcalls : ∀ dest_path, ∃ trace,
            calls (download_object P bucket key dest_path aws_profile region w).2
            = (calls w1 ++ os_makedirs (parent dest_path) true :: trace)%list).
  { intros dest_path. rewrite Download.download_object_unfold, Hclient. cbn zeta.
    destruct (makedirs_raises P _ _) as [e|]; [by exists []|].
    destruct (download_file_result P _ _ _ _ _) as [body|e];
      [|destruct (isinstance_ClientError e)];
      eexists [_]; cbn [snd calls log_call write_file add_dirs];
      by rewrite <- (assoc_L (++)). }
  split.
  - intros Hdir Hend. destruct (Hcalls (dir +:+ "/" +:+ name)) as [trace Htrace].
    exists trace. rewrite Htrace. unfold parent.
    change (dir +:+ "/" +:+ name) with (dir +:+ String sep name).
    rewrite dirname_joined by done. unfold str_or.
    by destruct (String.eqb_spec dir "").
  - destruct (Hcalls name) as [trace Htrace]. exists trace. rewrite Htrace.
    unfold parent. by rewrite dirname_bare.
Qed.

Lemma download_object_makedirs_argument_witness :
  ∃ trace,
    calls (download_object Demo.platform "my-bucket" "reports/q1.csv"
             ("backup/2025" +:+ "/" +:+ "q1.csv") None None Demo.world).2
    = (calls (_s3_client Demo.platform None None Demo.world).2
         ++ os_makedirs "backup/2025" true :: trace)%list.
Proof.
  refine (proj1 (download_object_makedirs_argument Demo.platform "my-bucket"
                   "reports/q1.csv" None None Demo.world _ _ "backup/2025" "q1.csv"
                   eq_refl eq_refl) _ _).
  - discriminate.
  - reflexivity.
Defined.

End Dirname.

(* ===================================================================== *)
(** ** The directories that [download_object] creates                     *)
(* ===================================================================== *)

Module ParentChain.
Import PosixPath Notions.

Lemma no_sep_app (s1 s2 : string) : no_sep (s1 +:+ s2) = no_sep s1 && no_sep s2.
Proof.
  induction s1 as [|c s1 IH]; [done|].
  rewrite StringFacts.app_cons. cbn [no_sep]. by rewrite IH, andb_assoc.
Qed.

Lemma no_sep_rev (s : string) : no_sep (String.rev s) = no_sep s.
Proof.
  induction s as [|c s IH]; [done|].
  rewrite StringFacts.rev_cons, no_sep_app, IH. cbn [no_sep].
  by rewrite andb_true_r, andb_comm.
Qed.

(** A path that ends with a component does not end with a separator. *)
Lemma ends_with_sep_component (s c : string) :
  component c = true → ends_with_sep (s +:+ c) = false.
Proof.
  intros [Hne Hc]%andb_true_iff. unfold ends_with_sep.
  rewrite StringFacts.rev_app. rewrite <- no_sep_rev in Hc.
  destruct (String.rev c) as [|y r] eqn:Hrev.
  { apply (f_equal String.rev) in Hrev. rewrite StringFacts.rev_involutive in Hrev.
    by subst c. }
  rewrite StringFacts.app_cons. cbn [no_sep] in Hc.
  apply andb_true_iff in Hc as [Hy _]. by apply negb_true_iff.
Qed.

Lemma descend_snoc (base : string) (comps : list string) (c : string) :
  descend base (comps ++ [c]) = descend base comps +:+ String sep c.
Proof. unfold descend. by rewrite foldl_app. Qed.

Section Descend.
Context (base : string) (Hbase : base ≠ "") (Hend : ends_with_sep base = false).

Lemma descend_well_formed (comps : list string) :
  Forall (λ c, component c = true) comps →
  descend base comps ≠ "" ∧ ends_with_sep (descend base comps) = false.
Proof.
  induction comps as [|c comps _] using rev_ind; [done|].
  intros [_ Hc]%Forall_app. rewrite Forall_singleton in Hc.
  rewrite descend_snoc. split.
  - by destruct (descend base comps).
  - change (String sep c) with ("/" +:+ c). rewrite <- StringFacts.app_assoc.
    by apply ends_with_sep_component.
Qed.

(** The directory of [base/c1/.../cn/c] is [base/c1/.../cn]. *)
Lemma dirname_descend_snoc (comps : list string) (c : string) :
  Forall (λ c, component c = true) comps → no_sep c = true →
  dirname (descend base comps +:+ String sep c) = descend base comps.
Proof.
  intros Hcomps Hc. destruct (descend_well_formed comps Hcomps) as [Hne Hsep].
  by apply Dirname.dirname_joined.
Qed.

Lemma chain_from_head (fuel : nat) (name : string) : name ∈ chain_from fuel name.
Proof.
  destruct fuel as [|fuel]; cbn [chain_from]; [set_solver|].
  case_match; set_solver.
Qed.

Lemma length_descend (comps : list string) :
  (length comps ≤ String.length (descend base comps))%nat.
Proof.
  induction comps as [|c comps IH] using rev_ind; [cbn; lia|].
  rewrite descend_snoc, length_app, StringFacts.length_app. cbn [length String.length].
  lia.
Qed.

(** Every directory between [base] and [base/c1/.../cn] is in the chain
    of the latter. *)
Lemma chain_from_descend (comps : list string) (fuel k : nat) :
  Forall (λ c, component c = true) comps → (length comps ≤ fuel)%nat →
  descend base (take k comps) ∈ chain_from fuel (descend base comps).
Proof.
  revert fuel. induction comps as [|c comps IH] using rev_ind; intros fuel Hcomps Hfuel.
  { rewrite take_nil. apply chain_from_head. }
  apply Forall_app in Hcomps as [Hcomps Hc]. rewrite Forall_singleton in Hc.
  rewrite length_app in Hfuel. cbn [length] in Hfuel.
  destruct fuel as [|fuel]; [lia|].
  destruct (decide (k ≤ length comps)%nat) as [Hk|Hk].
  - rewrite take_app_le by done. rewrite descend_snoc. cbn [chain_from].
    apply andb_true_iff in Hc as [Hcne Hc].
    rewrite (dirname_descend_snoc comps c Hcomps Hc).
    destruct (descend_well_formed comps Hcomps) as [Hne _].
    destruct (String.eqb_spec (descend base comps) "") as [|_]; [done|].
    destruct (String.eqb_spec (descend base comps) (descend base comps +:+ String sep c))
      as [Heq|_].
    { apply (f_equal String.length) in Heq. rewrite StringFacts.length_app in Heq.
      cbn [String.length] in Heq. lia. }
    cbn [orb]. apply elem_of_cons. right. apply IH; [done|lia].
  - rewrite take_ge by (rewrite length_app; cbn [length]; lia).
    apply chain_from_head.
Qed.

Lemma chain_descend (comps : list string) (k : nat) :
  Forall (λ c, component c = true) comps →
  descend base (take k comps) ∈ chain (descend base comps).
Proof.
  intros Hcomps. apply chain_from_descend; [done|apply length_descend].
Qed.

End Descend.

(** C8. [download_object] first asks [os.makedirs(..., exist_ok=True)] for
    the directory of [dest_path], then transfers the object to
    [dest_path]: when both calls succeed, the value returned is
    [dest_path] itself and the file at [dest_path] holds the object
    whatever it held before.  The directory asked for is ["."] when
    [dest_path] has no slash; for a destination [base/c1/.../cn/name] it is
    [base/c1/.../cn], and [base], [base/c1], ... and [base/c1/.../cn] all
    exist when the transfer starts and afterwards, as does every directory
    that existed before. *)
Theorem download_object_creates_parent_chain (P : Platform) (bucket key dest_path : string)
    (aws_profile region : option string) (w w1 : World) (s3 : S3Client) (body : string) :
  let w2 := log_call (os_makedirs (parent dest_path) true) w1 in
  let w3 := log_call (s3_download_file s3 bucket key dest_path)
              (add_dirs (PosixPath.chain (parent dest_path)) w2) in
  _s3_client P aws_profile region w = (Return s3, w1) →
  makedirs_raises P (parent dest_path) w2 = None →
  download_file_result P s3 bucket key dest_path w3 = Return body →
  ∃ w',
    download_object P bucket key dest_path aws_profile region w = (Return dest_path, w')
    ∧ calls w' = (calls w1 ++ [os_makedirs (parent dest_path) true;
                               s3_download_file s3 bucket key dest_path])%list
    ∧ (no_sep dest_path = true → parent dest_path = ".")
    ∧ (∀ base comps name,
         dest_path = descend base comps +:+ "/" +:+ name →
         base ≠ "" → ends_with_sep base = false →
         Forall (λ c, component c = true) comps → no_sep name = true →
         parent dest_path = descend base comps
         ∧ ∀ k, descend base (take k comps) ∈ dirs w3
                ∧ descend base (take k comps) ∈ dirs w')
    ∧ (PosixPath.dirname dest_path = "" → parent dest_path = ".")
    ∧ (PosixPath.dirname dest_path ≠ "" → parent dest_path = PosixPath.dirname dest_path)
    ∧ parent dest_path ∈ dirs w'
    ∧ (∀ dir, dir ∈ PosixPath.chain (parent dest_path) → dir ∈ dirs w')
    ∧ dirs w1 ⊆ dirs w'
    ∧ files w' !! dest_path = Some body
    ∧ ∀ path, path ≠ dest_path → files w' !! path = files w1 !! path.
Proof.
  intros w2 w3 Hclient Hdirs Hget.
  destruct (Download.download_object_succeeds P bucket key dest_path aws_profile region
              w w1 s3 body Hclient Hdirs Hget)
    as (w' & Hrun & Hcalls & Hdot & Hdir & Hparent & Hchain & Hfile).
  assert (Hw' : w' = write_file dest_path body w3).
  { rewrite Download.download_object_unfold, Hclient in Hrun. cbn zeta in Hrun.
    fold w2 in Hrun. rewrite Hdirs in Hrun. fold w3 in Hrun. rewrite Hget in Hrun.
    congruence. }
  assert (Hjoined : ∀ base comps name,
            dest_path = descend base comps +:+ "/" +:+ name →
            base ≠ "" → ends_with_sep base = false →
            Forall (λ c, component c = true) comps → no_sep name = true →
            parent dest_path = descend base comps).
  { intros base comps name -> Hbase Hend Hcomps Hname.
    assert (Hd : dirname (descend base comps +:+ "/" +:+ name) = descend base comps).
    { change ("/" +:+ name) with (String sep name). by apply dirname_descend_snoc. }
    rewrite Hdir; rewrite Hd; [done|].
    by destruct (descend_well_formed base Hbase Hend comps Hcomps). }
  exists w'. split; [done|]. split; [done|].
  split; [intros Hbare; apply Hdot; by apply Dirname.dirname_bare|].
  split.
  { intros base comps name Hdest Hbase Hend Hcomps Hname.
    split; [by apply (Hjoined base comps name)|].
    intros k.
    assert (Hk : descend base (take k comps) ∈ chain (parent dest_path)).
    { rewrite (Hjoined base comps name) by done. by apply chain_descend. }
    split; [|by apply Hchain].
    cbn. apply elem_of_union_l. by apply elem_of_list_to_set. }
  split; [done|]. split; [done|]. split; [done|]. split; [done|].
  split; [rewrite Hw'; cbn; set_solver|]. split; [done|].
  intros path Hpath. rewrite Hw'. cbn. by apply lookup_insert_ne.
Qed.

(** Downloading to [a/b/c/file.txt] when only [out] exists creates [a],
    [a/b] and [a/b/c]; downloading to [out/q1.csv] replaces the file that
    is there. *)
Lemma download_object_creates_parent_chain_witness :
  (∃ w',
     download_object Demo.platform "my-bucket" "reports/q1.csv" "a/b/c/file.txt" None None
       Demo.world = (Return "a/b/c/file.txt", w')
     ∧ dirs Demo.world = {[ "out" ]}
     ∧ "a" ∈ dirs w' ∧ "a/b" ∈ dirs w' ∧ "a/b/c" ∈ dirs w'
     ∧ files w' !! "a/b/c/file.txt" = Some "q,1")
  ∧ (∃ w',
       download_object Demo.platform "my-bucket" "reports/q1.csv" "out/q1.csv" None None
         Demo.world = (Return "out/q1.csv", w')
       ∧ files Demo.world !! "out/q1.csv" = Some "stale"
       ∧ files w' !! "out/q1.csv" = Some "q,1").
Proof.
  split.
  - destruct (download_object_creates_parent_chain Demo.platform "my-bucket"
                "reports/q1.csv" "a/b/c/file.txt" None None Demo.world
                (_s3_client Demo.platform None None Demo.world).2
                (mkClient (mkSession None None) "s3" (mkConfig 10 "standard" 5 60))
                "q,1" eq_refl eq_refl eq_refl)
      as (w' & Hrun & _ & _ & Hchain & _ & _ & _ & _ & _ & Hfile & _).
    destruct (Hchain "a" ["b"; "c"] "file.txt" eq_refl ltac:(discriminate) eq_refl
                ltac:(repeat constructor) eq_refl) as [_ Hdirs].
    exists w'. split; [exact Hrun|]. split; [reflexivity|].
    split; [exact (proj2 (Hdirs 0%nat))|]. split; [exact (proj2 (Hdirs 1%nat))|].
    split; [exact (proj2 (Hdirs 2%nat))|exact Hfile].
  - destruct (download_object_creates_parent_chain Demo.platform "my-bucket"
                "reports/q1.csv" "out/q1.csv" None None Demo.world
                (_s3_client Demo.platform None None Demo.world).2
                (mkClient (mkSession None None) "s3" (mkConfig 10 "standard" 5 60))
                "q,1" eq_refl eq_refl eq_refl)
      as (w' & Hrun & _ & _ & _ & _ & _ & _ & _ & _ & Hfile & _).
    exists w'. split; [exact Hrun|]. split; [reflexivity|exact Hfile].
Defined.

End ParentChain.

(* ===================================================================== *)
(** ** The calls the transfers make and what they leave alone             *)
(* ===================================================================== *)

Module TransferEdges.


(** X10. [upload_file] changes no local file or directory.  It makes the
    two calls of client construction and then at most one put call, for the
    source, bucket and key given and with the options that are non-empty
    strings; it never lists, downloads or creates directories.  When it
    returns, the value is the pair of the bucket and the key as given and
    the put call was made. *)
Theorem upload_file_calls (P : Platform) (src_path bucket key : string)
    (content_type sse acl aws_profile region : option string) (w : World) :
  let r := upload_file P src_path bucket key content_type sse acl aws_profile region w in
  let setup := [session_call aws_profile region; client_call aws_profile region] in
  let put := s3_upload_file (client_for aws_profile region) src_path bucket key
               (forwarded content_type sse acl) in
  dirs r.2 = dirs w
  ∧ files r.2 = files w
  ∧ (made w r.2 [session_call aws_profile region] ∨ made w r.2 setup
     ∨ made w r.2 (setup ++ [put]))
  ∧ (∀ target, r.1 = Return target →
       target = (bucket, key) ∧ made w r.2 (setup ++ [put])).
Proof.
  cbn zeta. rewrite Upload.upload_file_unfold.
  pose proof (Client._s3_client_effects P aws_profile region w) as Heff.
  cbn zeta in Heff.
  destruct (_s3_client P aws_profile region w) as [[s3|e] w1]; cbn [fst snd] in *.
  - destruct Heff as (Hd & Hf & -> & Hcalls). unfold made in *. cbn zeta.
    destruct (upload_file_raises P _ _ _ _ _ _) as [e|];
      [destruct (isinstance_ClientError e)|];
      cbn [fst snd log_call dirs files calls];
      rewrite Hcalls, <- (assoc_L (++));
      (split; [done|]); (split; [done|]); (split; [by right; right|]); try done.
    by intros target [= <-].
  - destruct Heff as (Hd & Hf & Hcalls).
    split; [done|]. split; [done|]. split; [|done]. destruct Hcalls; auto.
Qed.


Lemma upload_file_calls_witness :
  made Demo.world
    (upload_file Demo.platform "./report.csv" "my-bucket" "r.csv" None (Some "AES256") None
       None None Demo.world).2
    [ session_call None None; client_call None None;
      s3_upload_file (client_for None None) "./report.csv" "my-bucket" "r.csv"
        (Some {[ "ServerSideEncryption" := "AES256" ]}) ].
Proof.
  exact (proj2 (proj2 (proj2 (proj2 (upload_file_calls Demo.platform "./report.csv"
                                       "my-bucket" "r.csv" None (Some "AES256") None
                                       None None Demo.world)))
                  ("my-bucket", "r.csv") eq_refl)).
Defined.

End TransferEdges.

(* ===================================================================== *)
(** ** The commands of [cli.py]                                           *)
(* ===================================================================== *)

Module Commands.

Import Cli.

(** Unfold the command monad. *)
Ltac crun :=
  unfold cbind, eval, call, echo, cret in *; cbn beta iota in *.

Lemma obj_getitem_main (ctx : Context) (aws_profile region : option string) :
  obj_getitem (main ctx aws_profile region) "profile" = Return aws_profile
  ∧ obj_getitem (main ctx aws_profile region) "region" = Return region.
Proof.
  unfold main, obj_setitem, ensure_object, obj_getitem.
  destruct ctx as [[d|]]; cbn [obj fmap option_fmap option_map];
    (split; [rewrite lookup_insert_ne by done|]); by rewrite lookup_insert_eq.
Qed.

(** X11. The group callback stores its two options for the commands: after
    [main], [ctx.obj["profile"]] and [ctx.obj["region"]] are the values
    given, whether the context had no object, an empty dictionary or older
    values; the other keys of an existing dictionary keep their values, and
    running [main] again replaces the two options. *)
Theorem main_stores_options (ctx : Context) (aws_profile region : option string) :
  obj_getitem (main ctx aws_profile region) "profile" = Return aws_profile
  ∧ obj_getitem (main ctx aws_profile region) "region" = Return region
  ∧ (∀ d key, obj ctx = Some d → key ≠ "profile" → key ≠ "region" →
       obj_getitem (main ctx aws_profile region) key = obj_getitem ctx key)
  ∧ (∀ aws_profile' region',
       main (main ctx aws_profile region) aws_profile' region' = main ctx aws_profile' region').
Proof.
  destruct (obj_getitem_main ctx aws_profile region) as [Hp Hr].
  split; [done|]. split; [done|]. split.
  - intros d key Hd Hkp Hkr. unfold main, obj_setitem, ensure_object, obj_getitem.
    destruct ctx as [o]. cbn [obj] in Hd. subst o.
    cbn [obj fmap option_fmap option_map]. by rewrite !lookup_insert_ne.
  - intros aws_profile' region'. unfold main, obj_setitem, ensure_object.
    destruct ctx as [[d|]]; cbn [obj fmap option_fmap option_map]; [|done].
    f_equal. f_equal. apply map_eq. intros key.
    destruct (decide (key = "region")) as [->|Hkr]; [by rewrite !lookup_insert_eq|].
    rewrite !(lookup_insert_ne _ "region") by done.
    destruct (decide (key = "profile")) as [->|Hkp]; [by rewrite !lookup_insert_eq|].
    rewrite !(lookup_insert_ne _ "profile") by done.
    by rewrite !lookup_insert_ne.
Qed.

Lemma main_stores_options_witness :
  obj_getitem (main (mkContext (Some {[ "profile" := Some "old"; "verbose" := None ]}))
                 (Some "staging") None) "verbose"
  = Return None.
Proof.
  rewrite (proj1 (proj2 (proj2 (main_stores_options
                                  (mkContext (Some {[ "profile" := Some "old";
                                                      "verbose" := None ]}))
                                  (Some "staging") None))) _ "verbose" eq_refl);
    [reflexivity|discriminate|discriminate].
Defined.

Section Run.
Context (H : Host) (ctx : Context) (prof region : option string).
Hypothesis Hprof : obj_getitem ctx "profile" = Return prof.
Hypothesis Hregion : obj_getitem ctx "region" = Return region.

Lemma summary_cmd_unfold (bucket : string) (prefix : option string) (as_json : bool)
    (p : Process) :
  summary_cmd H ctx bucket prefix as_json p
  = match summarize_bucket (platform H) bucket prefix prof region (world p) with
    | (Raise e, w') => (Raise e, mkProcess w' (stdout p))
    | (Return result, w') =>
        if as_json then
          match human_readable_size result with
          | Raise e => (Raise e, mkProcess w' (stdout p))
          | Return human_size =>
              match json_dumps H
                      [ ("bucket", Json.Str (S3ops.bucket result));
                        ("prefix", match S3ops.prefix result with
                                   | Some s => Json.Str s
                                   | None => Json.Null
                                   end);
                        ("object_count", Json.Number (object_count result));
                        ("total_bytes", Json.Number (total_bytes result));
                        ("human_size", Json.Str human_size) ] with
              | Raise e => (Raise e, mkProcess w' (stdout p))
              | Return message => (Return tt, mkProcess w' (stdout p ++ [message]))
              end
          end
        else
          let two :=
            [ "Bucket:       " +:+ S3ops.bucket result;
              "Prefix:       " +:+ or_str (S3ops.prefix result) "(none)" ] in
          match str_int H (object_count result) with
          | Raise e => (Raise e, mkProcess w' (stdout p ++ two))
          | Return count =>
              let three := (two ++ ["Objects:      " +:+ count])%list in
              match str_int H (total_bytes result) with
              | Raise e => (Raise e, mkProcess w' (stdout p ++ three))
              | Return total =>
                  match human_readable_size result with
                  | Raise e => (Raise e, mkProcess w' (stdout p ++ three))
                  | Return human_size =>
                      (Return tt,
                       mkProcess w'
                         (stdout p ++ three ++
                          ["Total size:   " +:+ total +:+ " bytes ("
                             +:+ human_size +:+ ")"]))
                  end
              end
          end
    end.
Proof.
  unfold summary_cmd. crun. rewrite Hprof, Hregion.
  destruct (summarize_bucket _ _ _ _ _ _) as [[result|e] w']; [|done].
  destruct as_json.
  - destruct (human_readable_size result) as [human|e]; [|done].
    by destruct (json_dumps H _) as [message|e].
  - cbn [world stdout].
    destruct (str_int H (object_count result)) as [count|e];
      [|by rewrite <- ?(assoc_L (++))].
    destruct (str_int H (total_bytes result)) as [total|e];
      [|by rewrite <- ?(assoc_L (++))].
    destruct (human_readable_size result) as [human|e];
      cbn [world stdout]; by rewrite <- ?(assoc_L (++)).
Qed.

(** Numbers within the limit are printed as they are. *)
Lemma str_int_short (n : Z) : too_long H n = false → str_int H n = Return (pretty n).
Proof. unfold str_int. by intros ->. Qed.

Lemma json_dumps_short (result : S3Summary) (human_size : string) :
  too_long H (object_count result) = false →
  too_long H (total_bytes result) = false →
  json_dumps H
    [ ("bucket", Json.Str (S3ops.bucket result));
      ("prefix", match S3ops.prefix result with
                 | Some s => Json.Str s
                 | None => Json.Null
                 end);
      ("object_count", Json.Number (object_count result));
      ("total_bytes", Json.Number (total_bytes result));
      ("human_size", Json.Str human_size) ]
  = Return (summary_json result human_size).
Proof.
  intros Hcount Htotal. unfold json_dumps, summary_json. cbn [existsb snd].
  rewrite Hcount, Htotal. by destruct (S3ops.prefix result).
Qed.

Lemma download_cmd_unfold (bucket key dest_path : string) (p : Process) :
  download_cmd H ctx bucket key dest_path p
  = match download_object (platform H) bucket key dest_path prof region (world p) with
    | (Raise e, w') => (Raise e, mkProcess w' (stdout p))
    | (Return path, w') =>
        match abspath H path with
        | Raise e => (Raise e, mkProcess w' (stdout p))
        | Return absolute =>
            (Return tt, mkProcess w' (stdout p ++ ["Downloaded to: " +:+ absolute]))
        end
    end.
Proof.
  unfold download_cmd. crun. rewrite Hprof, Hregion.
  destruct (download_object _ _ _ _ _ _ _) as [[path|e] w']; [|done].
  by destruct (abspath H path).
Qed.

Lemma upload_cmd_unfold (src_path bucket key : string)
    (content_type sse acl : option string) (p : Process) :
  upload_cmd H ctx src_path bucket key content_type sse acl p
  = match upload_file (platform H) src_path bucket key content_type sse acl prof region
            (world p) with
    | (Raise e, w') => (Raise e, mkProcess w' (stdout p))
    | (Return (b, k), w') =>
        (Return tt, mkProcess w' (stdout p ++ ["Uploaded: s3://" +:+ b +:+ "/" +:+ k]))
    end.
Proof.
  unfold upload_cmd. crun. rewrite Hprof, Hregion.
  by destruct (upload_file _ _ _ _ _ _ _ _ _ _) as [[[b k]|e] w'].
Qed.

End Run.

(** A summary carries the bucket and the prefix it was asked for. *)
Lemma summarize_bucket_fields (P : Platform) (bucket : string)
    (prefix aws_profile region : option string) (w w' : World) (result : S3Summary) :
  summarize_bucket P bucket prefix aws_profile region w = (Return result, w') →
  S3ops.bucket result = bucket ∧ S3ops.prefix result = prefix.
Proof.
  rewrite Summary.summarize_bucket_unfold.
  destruct (_s3_client P aws_profile region w) as [[s3|e] w1]; [|done].
  cbn zeta. destruct (snd (list_pages P s3 bucket (or_str prefix "") _)) as [e|]; [done|].
  by intros [= <- _].
Qed.

Lemma download_object_returns (P : Platform) (bucket key dest_path : string)
    (aws_profile region : option string) (w w' : World) (path : string) :
  download_object P bucket key dest_path aws_profile region w = (Return path, w') →
  path = dest_path.
Proof.
  rewrite Download.download_object_unfold.
  destruct (_s3_client P aws_profile region w) as [[s3|e] w1]; [|done].
  cbn zeta. destruct (makedirs_raises P _ _); [done|].
  destruct (download_file_result P _ _ _ _ _) as [body|e]; [by intros [= <- _]|].
  by destruct (isinstance_ClientError e).
Qed.

Lemma upload_file_returns (P : Platform) (src_path bucket key : string)
    (content_type sse acl aws_profile region : option string) (w w' : World)
    (target : string * string) :
  upload_file P src_path bucket key content_type sse acl aws_profile region w
  = (Return target, w') →
  target = (bucket, key).
Proof.
  rewrite Upload.upload_file_unfold.
  destruct (_s3_client P aws_profile region w) as [[s3|e] w1]; [|done].
  cbn zeta. destruct (upload_file_raises P _ _ _ _ _ _) as [e|]; [|by intros [= <- _]].
  by destruct (isinstance_ClientError e).
Qed.

(** X12. The [--profile] option of the group reaches the environment of
    the process through every command: behind [main] with a non-empty
    profile, each of the three commands ends with [AWS_PROFILE] set to it
    and the rest of [os.environ] as before, whether the command succeeds or
    fails; behind [main] without a profile, [os.environ] is unchanged. *)
Theorem profile_option_reaches_environment (H : Host) (ctx : Context)
    (region : option string) (p : Process)
    (src_path dest_path bucket key : string) (as_json : bool)
    (prefix content_type sse acl : option string) :
  (∀ name : string, name ≠ "" →
     let ctx' := main ctx (Some name) region in
     environ (world (summary_cmd H ctx' bucket prefix as_json p).2)
     = <["AWS_PROFILE" := name]> (environ (world p))
     ∧ environ (world (download_cmd H ctx' bucket key dest_path p).2)
       = <["AWS_PROFILE" := name]> (environ (world p))
     ∧ environ (world (upload_cmd H ctx' src_path bucket key content_type sse acl p).2)
       = <["AWS_PROFILE" := name]> (environ (world p)))
  ∧ (let ctx' := main ctx None region in
     environ (world (summary_cmd H ctx' bucket prefix as_json p).2) = environ (world p)
     ∧ environ (world (download_cmd H ctx' bucket key dest_path p).2) = environ (world p)
     ∧ environ (world (upload_cmd H ctx' src_path bucket key content_type sse acl p).2)
       = environ (world p)).
Proof.
  assert (Hall : ∀ aws_profile,
    let ctx' := main ctx aws_profile region in
    environ (world (summary_cmd H ctx' bucket prefix as_json p).2)
    = environ (_session (platform H) aws_profile region (world p)).2
    ∧ environ (world (download_cmd H ctx' bucket key dest_path p).2)
      = environ (_session (platform H) aws_profile region (world p)).2
    ∧ environ (world (upload_cmd H ctx' src_path bucket key content_type sse acl p).2)
      = environ (_session (platform H) aws_profile region (world p)).2).
  { intros aws_profile ctx'.
    destruct (obj_getitem_main ctx aws_profile region) as [Hp Hr].
    rewrite <- Environment._s3_client_environ.
    rewrite (summary_cmd_unfold H ctx' _ _ Hp Hr), (download_cmd_unfold H ctx' _ _ Hp Hr),
      (upload_cmd_unfold H ctx' _ _ Hp Hr).
    split; [|split].
    - rewrite <- (Environment.summarize_bucket_environ (platform H) bucket prefix).
      destruct (summarize_bucket _ _ _ _ _ _) as [[result|e] w']; [|done].
      destruct as_json.
      + destruct (human_readable_size result); [|done].
        by destruct (json_dumps H _).
      + cbn zeta. destruct (str_int H (object_count result)); [|done].
        destruct (str_int H (total_bytes result)); [|done].
        by destruct (human_readable_size result).
    - rewrite <- (Environment.download_object_environ (platform H) bucket key dest_path).
      destruct (download_object _ _ _ _ _ _ _) as [[path|e] w']; [|done].
      by destruct (abspath H path).
    - rewrite <- (Environment.upload_file_environ (platform H) src_path bucket key
                    content_type sse acl).
      by destruct (upload_file _ _ _ _ _ _ _ _ _ _) as [[[b k]|e] w']. }
  split.
  - intros name Hname. cbn zeta.
    destruct (Hall (Some name)) as (-> & -> & ->).
    rewrite Environment._session_environ. unfold truthy.
    apply String.eqb_neq in Hname. by rewrite Hname.
  - cbn zeta. destruct (Hall None) as (-> & -> & ->).
    by rewrite Environment._session_environ.
Qed.

Lemma profile_option_reaches_environment_witness :
  "staging" ≠ ""
  ∧ environ (world (upload_cmd CliDemo.host (main (mkContext None) (Some "staging") None)
                      "./report.csv" "locked" "r.csv" None None None CliDemo.process).2)
    = {[ "AWS_PROFILE" := "staging"; "HOME" := "/root" ]}.
Proof.
  split; [done|].
  exact (proj2 (proj2 (proj1 (profile_option_reaches_environment CliDemo.host
                                (mkContext None) None CliDemo.process
                                "./report.csv" "" "locked" "r.csv" false
                                None None None None)
                         "staging" ltac:(done)))).
Defined.

Section Outcomes.
Context (H : Host) (ctx : Context) (prof region : option string) (p : Process).
Hypothesis Hprof : obj_getitem ctx "profile" = Return prof.
Hypothesis Hregion : obj_getitem ctx "region" = Return region.

(** X13. The commands catch nothing and print nothing for a failed
    operation: when [summarize_bucket], [download_object] or [upload_file]
    raises, the command raises the same exception, the operation's effects
    on the process stay, and no message has been given to [click.echo]. *)
Theorem commands_propagate (e : exn) (w' : World)
    (src_path dest_path bucket key : string) (as_json : bool)
    (prefix content_type sse acl : option string) :
  (summarize_bucket (platform H) bucket prefix prof region (world p) = (Raise e, w') →
   summary_cmd H ctx bucket prefix as_json p = (Raise e, mkProcess w' (stdout p)))
  ∧ (download_object (platform H) bucket key dest_path prof region (world p) = (Raise e, w') →
     download_cmd H ctx bucket key dest_path p = (Raise e, mkProcess w' (stdout p)))
  ∧ (upload_file (platform H) src_path bucket key content_type sse acl prof region (world p)
     = (Raise e, w') →
     upload_cmd H ctx src_path bucket key content_type sse acl p
     = (Raise e, mkProcess w' (stdout p))).
Proof.
  rewrite (summary_cmd_unfold H ctx _ _ Hprof Hregion),
    (download_cmd_unfold H ctx _ _ Hprof Hregion),
    (upload_cmd_unfold H ctx _ _ Hprof Hregion).
  repeat split; by intros ->.
Qed.

(** X14. In text mode [summary_cmd] prints four lines for a summary whose
    counts are within the limit on digits and whose size string can be
    made: the bucket as given, the prefix as given or [(none)] when it is
    absent or empty, the object count, and the byte count followed by the
    size string in parentheses.  When the size string cannot be made the
    first three lines are already printed and the exception of
    [human_readable_size] leaves the command. *)
Theorem summary_cmd_text (bucket : string) (prefix : option string)
    (result : S3Summary) (w' : World) :
  summarize_bucket (platform H) bucket prefix prof region (world p) = (Return result, w') →
  too_long H (object_count result) = false →
  too_long H (total_bytes result) = false →
  let shown := match prefix with
               | Some s => if String.eqb s "" then "(none)" else s
               | None => "(none)"
               end in
  let lines := [ "Bucket:       " +:+ bucket;
                 "Prefix:       " +:+ shown;
                 "Objects:      " +:+ pretty (object_count result) ] in
  (∀ human_size, human_readable_size result = Return human_size →
     summary_cmd H ctx bucket prefix false p
     = (Return tt,
        mkProcess w'
          (stdout p ++ lines ++
           ["Total size:   " +:+ pretty (total_bytes result) +:+ " bytes ("
              +:+ human_size +:+ ")"])))
  ∧ (∀ e, human_readable_size result = Raise e →
       summary_cmd H ctx bucket prefix false p
       = (Raise e, mkProcess w' (stdout p ++ lines))).
Proof.
  intros Hrun Hcount Htotal. cbn zeta.
  rewrite (summary_cmd_unfold H ctx _ _ Hprof Hregion), Hrun. cbn zeta.
  rewrite (str_int_short H _ Hcount), (str_int_short H _ Htotal).
  destruct (summarize_bucket_fields _ _ _ _ _ _ _ _ Hrun) as [-> ->].
  assert (Hshown : or_str prefix "(none)"
                   = match prefix with
                     | Some s => if String.eqb s "" then "(none)" else s
                     | None => "(none)"
                     end).
  { unfold or_str, truthy. destruct prefix as [s|]; [|done].
    by destruct (String.eqb s ""). }
  rewrite Hshown. split; by intros ? ->.
Qed.

(** X15. In JSON mode [summary_cmd] prints all or nothing: one message for
    a summary whose counts are within the limit on digits and whose size
    string can be made, the dictionary of [bucket], [prefix],
    [object_count], [total_bytes] and [human_size] in this order with two
    spaces of indentation, where an absent prefix is [null] and an empty
    prefix is the empty JSON string; and no message at all when
    [human_readable_size] raises. *)
Theorem summary_cmd_json (bucket : string) (prefix : option string)
    (result : S3Summary) (w' : World) :
  summarize_bucket (platform H) bucket prefix prof region (world p) = (Return result, w') →
  let nl := String Json.newline "" in
  (∀ human_size,
     human_readable_size result = Return human_size →
     too_long H (object_count result) = false →
     too_long H (total_bytes result) = false →
     summary_cmd H ctx bucket prefix true p
     = (Return tt,
        mkProcess w'
          (stdout p ++
           [ "{" +:+ nl
             +:+ "  " +:+ Json.encode_str "bucket" +:+ ": " +:+ Json.encode_str bucket
             +:+ "," +:+ nl
             +:+ "  " +:+ Json.encode_str "prefix" +:+ ": "
             +:+ match prefix with
                 | Some s => Json.encode_str s
                 | None => "null"
                 end
             +:+ "," +:+ nl
             +:+ "  " +:+ Json.encode_str "object_count" +:+ ": "
             +:+ pretty (object_count result) +:+ "," +:+ nl
             +:+ "  " +:+ Json.encode_str "total_bytes" +:+ ": "
             +:+ pretty (total_bytes result) +:+ "," +:+ nl
             +:+ "  " +:+ Json.encode_str "human_size" +:+ ": "
             +:+ Json.encode_str human_size +:+ nl +:+ "}" ])))
  ∧ (∀ e, human_readable_size result = Raise e →
       summary_cmd H ctx bucket prefix true p = (Raise e, mkProcess w' (stdout p))).
Proof.
  intros Hrun. cbn zeta.
  rewrite (summary_cmd_unfold H ctx _ _ Hprof Hregion), Hrun.
  split; [|by intros ? ->]. intros human_size -> Hcount Htotal.
  rewrite (json_dumps_short H _ _ Hcount Htotal).
  destruct (summarize_bucket_fields _ _ _ _ _ _ _ _ Hrun) as [Hb Hp].
  f_equal. f_equal. f_equal. f_equal.
  unfold summary_json, Json.dumps_indent2, Json.item. rewrite Hb, Hp.
  cbn [fmap list_fmap Json.join fst snd Json.encode].
  destruct prefix as [s|]; cbn [Json.encode];
    rewrite !StringFacts.app_assoc; reflexivity.
Qed.

(** X16. [download_cmd] and [upload_cmd] print exactly one message, and
    only after the operation returned: the absolute form of the destination
    path as given for a download, and [s3://] followed by the bucket, a
    slash and the key as given for an upload. *)
Theorem transfer_commands_report (w' : World) (src_path dest_path bucket key : string)
    (content_type sse acl : option string) (path absolute : string)
    (target : string * string) :
  (download_object (platform H) bucket key dest_path prof region (world p)
   = (Return path, w') →
   abspath H dest_path = Return absolute →
   download_cmd H ctx bucket key dest_path p
   = (Return tt, mkProcess w' (stdout p ++ ["Downloaded to: " +:+ absolute])))
  ∧ (upload_file (platform H) src_path bucket key content_type sse acl prof region (world p)
     = (Return target, w') →
     upload_cmd H ctx src_path bucket key content_type sse acl p
     = (Return tt, mkProcess w' (stdout p ++ ["Uploaded: s3://" +:+ bucket +:+ "/" +:+ key]))).
Proof.
  rewrite (download_cmd_unfold H ctx _ _ Hprof Hregion),
    (upload_cmd_unfold H ctx _ _ Hprof Hregion).
  split; intros Hrun; rewrite Hrun.
  - rewrite (download_object_returns _ _ _ _ _ _ _ _ _ Hrun). by intros ->.
  - by rewrite (upload_file_returns _ _ _ _ _ _ _ _ _ _ _ _ Hrun).
Qed.

End Outcomes.

Lemma commands_propagate_witness :
  ∃ w',
    download_cmd CliDemo.host CliDemo.context "my-bucket" "missing-key" "./out.bin"
      CliDemo.process
    = (Raise (download_error "my-bucket" "missing-key" Demo.not_found), mkProcess w' []).
Proof.
  eexists.
  refine (proj1 (proj2 (commands_propagate CliDemo.host CliDemo.context None None
                          CliDemo.process eq_refl eq_refl
                          (download_error "my-bucket" "missing-key" Demo.not_found) _
                          "" "./out.bin" "my-bucket" "missing-key" false
                          None None None None)) _).
  vm_compute. reflexivity.
Defined.

Lemma summary_cmd_text_witness :
  stdout (summary_cmd CliDemo.host CliDemo.context "my-bucket" (Some "logs/2025/") false
            CliDemo.process).2
  = [ "Bucket:       my-bucket"; "Prefix:       logs/2025/"; "Objects:      3";
      "Total size:   600 bytes (600.00 B)" ].
Proof.
  rewrite (proj1 (summary_cmd_text CliDemo.host CliDemo.context None None CliDemo.process
                    eq_refl eq_refl "my-bucket" (Some "logs/2025/")
                    (mkS3Summary "my-bucket" (Some "logs/2025/") 3 600)
                    (summarize_bucket Demo.platform "my-bucket" (Some "logs/2025/")
                       None None Demo.world).2 eq_refl eq_refl eq_refl)
             "600.00 B" eq_refl).
  reflexivity.
Defined.

Lemma summary_cmd_json_witness :
  ∃ message,
    stdout (summary_cmd CliDemo.host CliDemo.context "my-bucket" (Some "logs/2025/") true
              CliDemo.process).2 = [message]
    ∧ String.length message = 124%nat.
Proof.
  eexists. split.
  - rewrite (proj1 (summary_cmd_json CliDemo.host CliDemo.context None None CliDemo.process
                      eq_refl eq_refl "my-bucket" (Some "logs/2025/")
                      (mkS3Summary "my-bucket" (Some "logs/2025/") 3 600)
                      (summarize_bucket Demo.platform "my-bucket" (Some "logs/2025/")
                         None None Demo.world).2 eq_refl)
               "600.00 B" eq_refl eq_refl eq_refl).
    reflexivity.
  - vm_compute. reflexivity.
Defined.

Lemma transfer_commands_report_witness :
  stdout (upload_cmd CliDemo.host CliDemo.context "./report.csv" "my-bucket"
            "reports/2025/report.csv" (Some "text/csv") None None CliDemo.process).2
  = ["Uploaded: s3://my-bucket/reports/2025/report.csv"].
Proof.
  rewrite (proj2 (transfer_commands_report CliDemo.host CliDemo.context None None
                    CliDemo.process eq_refl eq_refl _ "./report.csv" "" "my-bucket"
                    "reports/2025/report.csv" (Some "text/csv") None None "" ""
                    ("my-bucket", "reports/2025/report.csv")) eq_refl).
  reflexivity.
Defined.

End Commands.

(* ===================================================================== *)
(** ** The JSON message of [summary_cmd]                                  *)
(* ===================================================================== *)

Module JsonMessage.

Import Cli.

(** Escaping a character can be undone, whatever follows. *)
Lemma unescape_head_escape (c : ascii) (rest : string) :
  unescape_head (Json.escape c +:+ rest) = Some (c, rest).
Proof.
  destruct c as [[] [] [] [] [] [] [] []]; reflexivity.
Qed.

(** An escaped character never starts with a quote. *)
Lemma escape_no_quote (c : ascii) (rest other : string) :
  Json.escape c +:+ rest ≠ String Json.quote other.
Proof.
  destruct c as [[] [] [] [] [] [] [] []]; discriminate.
Qed.

(** An encoded string ends at its first quote: what follows the closing
    quote cannot be confused with the string. *)
Lemma escape_all_delimited (s1 s2 rest1 rest2 : string) :
  Json.escape_all s1 +:+ String Json.quote rest1
  = Json.escape_all s2 +:+ String Json.quote rest2 →
  s1 = s2 ∧ rest1 = rest2.
Proof.
  revert s2. induction s1 as [|c1 s1 IH]; intros [|c2 s2]; cbn [Json.escape_all].
  - rewrite !StringFacts.app_nil_l. by intros [= ->].
  - rewrite StringFacts.app_nil_l, StringFacts.app_assoc. intros Heq.
    symmetry in Heq. by apply escape_no_quote in Heq.
  - rewrite StringFacts.app_nil_l, StringFacts.app_assoc. intros Heq.
    by apply escape_no_quote in Heq.
  - rewrite !StringFacts.app_assoc. intros Heq.
    apply (f_equal unescape_head) in Heq. rewrite !unescape_head_escape in Heq.
    injection Heq as -> Heq. destruct (IH _ Heq) as [-> ->]. done.
Qed.

Lemma encode_str_delimited (s1 s2 rest1 rest2 : string) :
  Json.encode_str s1 +:+ rest1 = Json.encode_str s2 +:+ rest2 →
  s1 = s2 ∧ rest1 = rest2.
Proof.
  unfold Json.encode_str. rewrite !StringFacts.app_cons, !StringFacts.app_assoc.
  intros [= Heq]. rewrite !StringFacts.app_cons, !StringFacts.app_nil_l in Heq.
  by apply escape_all_delimited.
Qed.

Lemma summary_json_unfold (result : S3Summary) (human_size : string) :
  let next := String "," (String Json.newline "  ") in
  summary_json result human_size
  = String "{" (String Json.newline
      ("  " +:+ Json.encode_str "bucket" +:+ ": "
         +:+ Json.encode_str (S3ops.bucket result) +:+ next
         +:+ Json.encode_str "prefix" +:+ ": "
         +:+ Json.encode match S3ops.prefix result with
                         | Some s => Json.Str s
                         | None => Json.Null
                         end +:+ next
         +:+ Json.encode_str "object_count" +:+ ": "
         +:+ pretty (object_count result) +:+ next
         +:+ Json.encode_str "total_bytes" +:+ ": "
         +:+ pretty (total_bytes result) +:+ next
         +:+ Json.encode_str "human_size" +:+ ": "
         +:+ Json.encode_str human_size +:+ String Json.newline "}")).
Proof.
  unfold summary_json, Json.dumps_indent2, Json.item.
  cbn [fmap list_fmap Json.join fst snd Json.encode].
  rewrite !StringFacts.app_assoc. reflexivity.
Qed.

(** X17. For buckets and prefixes whose characters are code points below
    256, the strings of [Json], the message [summary_cmd] prints in JSON
    mode determines the bucket and the prefix of the summary: two
    summaries with the same message have the same bucket and the same
    prefix, and an absent prefix is never confused with an empty one. *)
Theorem summary_json_keeps_bucket_and_prefix (H : Host) (ctx : Context)
    (prof region : option string) (p : Process) :
  obj_getitem ctx "profile" = Return prof →
  obj_getitem ctx "region" = Return region →
  (∀ bucket prefix result w' human_size,
     summarize_bucket (platform H) bucket prefix prof region (world p) = (Return result, w') →
     human_readable_size result = Return human_size →
     too_long H (object_count result) = false →
     too_long H (total_bytes result) = false →
     summary_cmd H ctx bucket prefix true p
     = (Return tt, mkProcess w' (stdout p ++ [summary_json result human_size])))
  ∧ (∀ result1 result2 human1 human2,
       summary_json result1 human1 = summary_json result2 human2 →
       S3ops.bucket result1 = S3ops.bucket result2
       ∧ S3ops.prefix result1 = S3ops.prefix result2).
Proof.
  intros Hprof Hregion. split.
  - intros bucket prefix result w' human_size Hrun Hsize Hcount Htotal.
    rewrite (Commands.summary_cmd_unfold H ctx _ _ Hprof Hregion), Hrun, Hsize.
    by rewrite (Commands.json_dumps_short H _ _ Hcount Htotal).
  - intros result1 result2 human1 human2. rewrite !summary_json_unfold. cbn zeta.
    intros [= Heq]. rewrite !StringFacts.app_assoc in Heq.
    apply escape_all_delimited in Heq as [Hbucket Heq]. split; [done|].
    apply String.app_inj in Heq. apply String.app_inj in Heq. apply String.app_inj in Heq.
    destruct (S3ops.prefix result1) as [s1|], (S3ops.prefix result2) as [s2|];
      cbn [Json.encode] in Heq.
    + by apply encode_str_delimited in Heq as [-> _].
    + unfold Json.encode_str in Heq. discriminate Heq.
    + unfold Json.encode_str in Heq. discriminate Heq.
    + done.
Qed.

Lemma summary_json_keeps_bucket_and_prefix_witness :
  stdout (summary_cmd CliDemo.host CliDemo.context "my-bucket" (Some "empty/") true
            CliDemo.process).2
  = [summary_json (mkS3Summary "my-bucket" (Some "empty/") 0 0) "0.00 B"].
Proof.
  rewrite (proj1 (summary_json_keeps_bucket_and_prefix CliDemo.host CliDemo.context
                    None None CliDemo.process eq_refl eq_refl)
             "my-bucket" (Some "empty/") (mkS3Summary "my-bucket" (Some "empty/") 0 0)
             (summarize_bucket Demo.platform "my-bucket" (Some "empty/") None None
                Demo.world).2
             "0.00 B" eq_refl eq_refl eq_refl eq_refl).
  reflexivity.
Defined.

(** *** Only plain characters *)

Lemma all_plain_app (s1 s2 : string) :
  all_plain (s1 +:+ s2) = all_plain s1 && all_plain s2.
Proof.
  induction s1 as [|c s1 IH]; [done|].
  rewrite StringFacts.app_cons. cbn [all_plain]. by rewrite IH, andb_assoc.
Qed.

Lemma all_plain_escape (c : ascii) : all_plain (Json.escape c) = true.
Proof. destruct c as [[] [] [] [] [] [] [] []]; reflexivity. Qed.

Lemma all_plain_encode_str (s : string) : all_plain (Json.encode_str s) = true.
Proof.
  unfold Json.encode_str. cbn [all_plain]. rewrite all_plain_app.
  assert (Hall : all_plain (Json.escape_all s) = true).
  { induction s as [|c s IH]; [done|]. cbn [Json.escape_all].
    by rewrite all_plain_app, all_plain_escape, IH. }
  by rewrite Hall.
Qed.

Lemma all_plain_pretty_N_go (x : N) (s : string) :
  all_plain s = true → all_plain (pretty_N_go x s) = true.
Proof.
  revert s. induction (N.lt_wf_0 x) as [x _ IH]; intros s Hs.
  destruct (decide (0 < x)%N) as [Hx|Hx].
  - rewrite pretty_N_go_step by done. apply IH.
    + by apply N.div_lt.
    + cbn [all_plain]. rewrite Hs, andb_true_r.
      unfold pretty_N_char. by repeat case_match.
  - replace x with 0%N by lia. by rewrite pretty_N_go_0.
Qed.

Lemma all_plain_pretty (z : Z) : all_plain (pretty z) = true.
Proof.
  assert (HN : ∀ x : N, all_plain (pretty x) = true).
  { intros x. unfold pretty, pretty_N. case_decide; [done|].
    by apply all_plain_pretty_N_go. }
  destruct z as [|x|x]; [done|apply (HN (Npos x))|].
  unfold pretty, pretty_Z. rewrite all_plain_app. cbn [all_plain].
  exact (HN (Npos x)).
Qed.

Lemma all_plain_format_2f (size : num) (text : string) :
  format_2f size = Return text → all_plain text = true.
Proof.
  assert (Hfloat : ∀ x, all_plain (format_2f_float x) = true).
  { intros x. unfold format_2f_float, two_digits.
    rewrite !all_plain_app, !all_plain_pretty. by destruct (neg x). }
  destruct size as [n|x]; cbn [format_2f].
  - destruct (float_of_int n) as [x|e]; [|done]. intros [= <-]. apply Hfloat.
  - intros [= <-]. apply Hfloat.
Qed.

Lemma all_plain_for_unit (units : list string) (size : num) (text : string) :
  Forall (λ unit, all_plain unit = true) units →
  for_unit units size = Return text → all_plain text = true.
Proof.
  intros Hunits. revert size. induction Hunits as [|unit rest Hunit _ IH]; intros size.
  - cbn [for_unit]. destruct (format_2f size) as [t|e] eqn:Hfmt; [|done].
    intros [= <-]. by rewrite all_plain_app, (all_plain_format_2f _ _ Hfmt).
  - rewrite SizeFormat.for_unit_cons. destruct (lt_1024 size).
    + destruct (format_2f size) as [t|e] eqn:Hfmt; [|done].
      intros [= <-]. rewrite !all_plain_app, (all_plain_format_2f _ _ Hfmt), Hunit. done.
    + destruct (truediv_1024 size) as [size'|e]; [|done]. apply IH.
Qed.

(** X18. For buckets and prefixes whose characters are code points below
    256, the strings of [Json], the message [summary_cmd] prints in JSON
    mode is plain text: every character of it is a printable ASCII
    character or a line feed, and so is every character of a size string
    that [human_readable_size] returns. *)
Theorem summary_json_is_plain (result : S3Summary) (human_size : string) :
  human_readable_size result = Return human_size →
  all_plain human_size = true
  ∧ all_plain (summary_json result human_size) = true.
Proof.
  intros Hsize.
  assert (Hhuman : all_plain human_size = true).
  { refine (all_plain_for_unit _ _ _ _ Hsize). by repeat constructor. }
  split; [done|]. rewrite summary_json_unfold. cbn zeta.
  cbn [all_plain]. rewrite !all_plain_app, !all_plain_encode_str, !all_plain_pretty.
  destruct (S3ops.prefix result); cbn [Json.encode]; by rewrite ?all_plain_encode_str.
Qed.

Lemma summary_json_is_plain_witness :
  all_plain (summary_json (mkS3Summary (String "233"%char "t") None 3 600) "600.00 B")
  = true.
Proof.
  exact (proj2 (summary_json_is_plain (mkS3Summary (String "233"%char "t") None 3 600)
                  "600.00 B" eq_refl)).
Defined.

End JsonMessage.
